(** * The e-mail browser agent: workflow nodes, confirmation sub-protocol,
      query interpretation fallback and outbound threading headers.

    A shallow embedding of [src/workflows/agent_workflow.py],
    [src/task_executor.py], [src/query_engine.py] and [src/email_sender.py].

    Conventions.
    - A Python [str] is a [string]; [Optional[T]] is [option T]; a [dict]
      that is only read with [.get] is a [gmap string pyval]; a [dict] that
      is iterated or written is a list of pairs in insertion order.
    - A value of type [Any] is a [pyval]; the code only ever tests such a
      value for truth, formats it with [str()] or hands it on.
    - A call that may raise returns a [result]; [exn] stands for the
      instances of Python's [Exception], which is what every [except
      Exception] clause of the sources catches.
    - The external services (LLM chain, output parser, browser agent, SMTP
      session, confirmation channel) are section variables. *)

From Stdlib Require Import ZArith String Ascii List Bool Lia.
From stdpp Require Import base strings gmap list pretty.
Import ListNotations.

Local Open Scope string_scope.

(** ** Python values *)

Module Py.

(** The part of [Any] that the sources observe. [PyObj truth text] is any
    other object (a list, a dict, a page result ...), known by its truth
    value and by what [str()] makes of it. *)
Inductive pyval : Type :=
| PyNone
| PyBool (b : bool)
| PyInt (z : Z)
| PyStr (s : string)
| PyObj (truth : bool) (text : string).

(** [bool(v)], as tested by [if v:] and by [and] / [or]. *)
Definition truthy (v : pyval) : bool :=
  match v with
  | PyNone => false
  | PyBool b => b
  | PyInt z => negb (Z.eqb z 0)
  | PyStr s => negb (String.eqb s EmptyString)
  | PyObj t _ => t
  end.

(** [str(v)], as produced by an f-string field. *)
Definition py_str (v : pyval) : string :=
  match v with
  | PyNone => "None"
  | PyBool true => "True"
  | PyBool false => "False"
  | PyInt z => pretty z
  | PyStr s => s
  | PyObj _ t => t
  end.

(** The empty list literal [[]]. *)
Definition empty_list : pyval := PyObj false "[]".

(** Truth of an [Optional[str]]: [None] and the empty string are false. *)
Definition str_truthy (o : option string) : bool :=
  match o with
  | Some s => negb (String.eqb s EmptyString)
  | None => false
  end.

(** Line feed, the character written [\n] in the sources. *)
Definition LF : string := String "010"%char EmptyString.

(** [sep.join(parts)]. *)
Fixpoint join (sep : string) (parts : list string) : string :=
  match parts with
  | [] => EmptyString
  | [p] => p
  | p :: rest => p +:+ sep +:+ join sep rest
  end.

(** [enumerate(xs, start)]. *)
Fixpoint enumerate {A : Type} (start : nat) (xs : list A) : list (nat * A) :=
  match xs with
  | [] => []
  | x :: rest => (start, x) :: enumerate (S start) rest
  end.

(** Exceptions (instances of [Exception]). *)
Inductive exn : Type :=
| TypeError_multiple_values (callee kw : string)
    (* callee() got multiple values for keyword argument 'kw' *)
| AttributeError_NoneType (attr : string)
    (* 'NoneType' object has no attribute 'attr' *)
| KeyError (key : string)
    (* a mapping does not take key *)
| ServiceError (msg : string).
    (* raised by an external service: network, API, parser, SMTP ... *)

(** [str(e)], up to the wording of library messages. CPython prints the
    callee of a [TypeError] with its module path in front; [callee] is that
    qualified name. *)
Definition exn_str (e : exn) : string :=
  match e with
  | TypeError_multiple_values callee kw =>
      callee +:+ "() got multiple values for keyword argument '" +:+ kw +:+ "'"
  | AttributeError_NoneType attr =>
      "'NoneType' object has no attribute '" +:+ attr +:+ "'"
  | KeyError key => "'" +:+ key +:+ "'"
  | ServiceError msg => msg
  end.

Inductive result (A : Type) : Type :=
| Return (a : A)
| Raise (e : exn).
Arguments Return {A} a.
Arguments Raise {A} e.

Definition bind {A B : Type} (r : result A) (k : A -> result B) : result B :=
  match r with
  | Return a => k a
  | Raise e => Raise e
  end.

(** [try: body except Exception as e: handler(e)]. *)
Definition try_except {A : Type} (body : result A) (handler : exn -> result A)
  : result A :=
  match body with
  | Return a => Return a
  | Raise e => handler e
  end.

End Py.
Import Py.

Notation "x <- r ;; k" := (bind r (fun x => k))
  (at level 100, r at next level, right associativity).

(** ** [email_sender.py] *)

Module EmailSender.

(** A [MIMEMultipart('alternative')] under construction: the headers this
    code assigns, in order, and the attached [MIMEText] parts as
    (subtype, text). *)
Record message : Type := {
  headers : list (string * string);
  parts : list (string * string)
}.

Definition empty_message : message := {| headers := []; parts := [] |}.

(** [message[name] = value]: appends a header field. *)
Definition set_header (name value : string) (m : message) : message :=
  {| headers := headers m ++ [(name, value)]; parts := parts m |}.

(** [message.attach(MIMEText(text, subtype))]. *)
Definition attach (subtype text : string) (m : message) : message :=
  {| headers := headers m; parts := parts m ++ [(subtype, text)] |}.

(** [message.get(name)]: the first field of that name. *)
Definition get_header (name : string) (m : message) : option string :=
  snd <$> List.find (fun h => String.eqb (fst h) name) (headers m).

(** The message that [send_email] builds before it opens the SMTP
    session (lines 62-82). *)
Definition build_message (email_address recipient subject body : string)
    (in_reply_to references html_body : option string) : message :=
  let m := set_header "From" email_address empty_message in
  let m := set_header "To" recipient m in
  let m := set_header "Subject" subject m in
  let m := if str_truthy in_reply_to
           then set_header "In-Reply-To" (default EmptyString in_reply_to) m
           else m in
  let m := if str_truthy references
           then set_header "References" (default EmptyString references) m
           else if str_truthy in_reply_to
           then set_header "References" (default EmptyString in_reply_to) m
           else m in
  let m := attach "plain" body m in
  if str_truthy html_body
  then attach "html" (default EmptyString html_body) m
  else m.

(** Subject of a clarification mail (lines 140-146). *)
Definition clarification_subject (subject : string) (in_reply_to : option string)
  : string :=
  if negb (str_truthy in_reply_to)
  then "Clarification needed: " +:+ subject
  else if negb (String.prefix "Re:" subject)
       then "Re: " +:+ subject
       else subject.

(** Subject of a completion mail (lines 204-210). *)
Definition completion_subject (subject : string) (in_reply_to : option string)
  : string :=
  if negb (str_truthy in_reply_to)
  then "Completed: " +:+ subject
  else if negb (String.prefix "Re:" subject)
       then "Re: " +:+ subject
       else subject.

(** The numbered lines [f"{i}. {item}\n"] of both plain-text bodies. *)
Definition numbered (items : list string) : string :=
  String.concat EmptyString
    (map (fun p => pretty (fst p) +:+ ". " +:+ snd p +:+ LF) (enumerate 1 items)).

Definition clarification_body (questions : list string) : string :=
  "I need some clarification to better assist you:" +:+ LF +:+ LF
  +:+ numbered questions
  +:+ LF +:+ "Please reply to this email with your answers.".

Definition list_items (items : list string) : string :=
  String.concat EmptyString (map (fun q => "<li>" +:+ q +:+ "</li>") items).

Definition clarification_html (questions : list string) : string :=
  "
        <html>
        <body>
            <p>I need some clarification to better assist you:</p>
            <ol>
                " +:+ list_items questions +:+ "
            </ol>
            <p>Please reply to this email with your answers.</p>
        </body>
        </html>
        ".

Definition completion_body (task_summary : string) (actions_performed : list string)
  : string :=
  "Task completed! Here's a summary of what I did:" +:+ LF +:+ LF
  +:+ task_summary +:+ LF +:+ LF
  +:+ "Actions performed:" +:+ LF
  +:+ numbered actions_performed
  +:+ LF +:+ "Please let me know if you need anything else.".

Definition completion_html (task_summary : string) (actions_performed : list string)
  : string :=
  "
        <html>
        <body>
            <p><strong>Task completed!</strong> Here's a summary of what I did:</p>
            <p>" +:+ task_summary +:+ "</p>
            
            <p><strong>Actions performed:</strong></p>
            <ol>
                " +:+ list_items actions_performed +:+ "
            </ol>
            
            <p>Please let me know if you need anything else.</p>
        </body>
        </html>
        ".

Section Transport.

(** The SMTP session of lines 85-92 (connect, STARTTLS, login,
    [send_message], quit) for a sender, a password and a message. *)
Variable smtp_session : string -> string -> message -> result unit.

Variables email_address app_password : string.

Definition send_email (recipient subject body : string)
    (in_reply_to references html_body : option string) : bool :=
  match smtp_session email_address app_password
          (build_message email_address recipient subject body
             in_reply_to references html_body) with
  | Return _ => true
  | Raise _ => false
  end.

Definition send_clarification_email (recipient subject : string)
    (questions : list string) (in_reply_to references : option string) : bool :=
  send_email recipient (clarification_subject subject in_reply_to)
    (clarification_body questions) in_reply_to references
    (Some (clarification_html questions)).

Definition send_completion_email (recipient subject task_summary : string)
    (actions_performed : list string) (in_reply_to references : option string)
  : bool :=
  send_email recipient (completion_subject subject in_reply_to)
    (completion_body task_summary actions_performed) in_reply_to references
    (Some (completion_html task_summary actions_performed)).

End Transport.

End EmailSender.

(** ** [query_engine.py] *)

Module QueryEngine.

Record TaskDetails : Type := {
  website : string;
  action_type : string;
  target : option string;
  additional_context : option (list (string * pyval))
}.

Record QueryInterpretation : Type := {
  task_type : string;
  requires_clarification : bool;
  clarification_questions : option (list string);
  task_details : TaskDetails
}.

(** The value built in the [except] branch (lines 111-119). *)
Definition fallback_interpretation : QueryInterpretation := {|
  task_type := "unknown";
  requires_clarification := true;
  clarification_questions :=
    Some ["Could you please provide more details about what you'd like me to do?"];
  task_details := {|
    website := EmptyString;
    action_type := "unknown";
    target := None;
    additional_context := None
  |}
|}.

Section Chain.

(** [chain.arun(email_content=...)]: the LLM call on the filled prompt. *)
Variable chain_arun : string -> result string.
(** [parser.parse(result)]: the structured-output parser. *)
Variable parser_parse : string -> result QueryInterpretation.

Definition interpret_query (email_content : string) : result QueryInterpretation :=
  try_except
    (llm_output <- chain_arun email_content ;;
     interpretation <- parser_parse llm_output ;;
     Return interpretation)
    (fun _ => Return fallback_interpretation).

End Chain.

End QueryEngine.

(** ** [task_executor.py] *)

Module TaskExecutor.

(** [additional_context]: a dict in insertion order. *)
Definition context : Type := list (string * pyval).

(** [d[key] = value]: overwrite in place, or append a new key. *)
Fixpoint dict_set (key : string) (value : pyval) (d : context) : context :=
  match d with
  | [] => [(key, value)]
  | (k, v) :: rest =>
      if String.eqb k key then (k, value) :: rest
      else (k, v) :: dict_set key value rest
  end.

(** Truth of an [Optional[Dict]]: [None] and the empty dict are false. *)
Definition context_truthy (c : option context) : bool :=
  match c with
  | Some (_ :: _) => true
  | _ => false
  end.

(** (success_status, task_results, action_log). *)
Definition outcome : Type := bool * gmap string pyval * list string.

(** [results.get(key, default)]. *)
Definition dict_get (d : gmap string pyval) (key : string) (dflt : pyval) : pyval :=
  default dflt (d !! key).

(** What the executor does to the outside, in order. *)
Inductive event : Type :=
| ExecuteTask (task_description : string) (additional_context : option context)
| AskConfirmation (options : pyval).

Definition is_execution (e : event) : bool :=
  match e with
  | ExecuteTask _ _ => true
  | AskConfirmation _ => false
  end.

(** Number of [execute_task] invocations in a log. *)
Definition executions (log : list event) : nat :=
  length (filter (fun e => is_execution e = true) log).

Section Agent.

(** State of everything outside the process: the browser, the sites,
    the user. *)
Context {W : Type}.

(** [Agent(task=..., llm=...)] followed by [agent.run()]. *)
Variable agent_run : string -> W -> result pyval * W.

(** [execute_task] as written (lines 39-93). The [log_action] callback
    is defined but never registered, so [action_log] stays empty. *)
Definition execute_task (task_description : string)
    (additional_context : option context) (w : W) : outcome * W :=
  let contextualized_task :=
    if context_truthy additional_context
    then fold_left
           (fun acc kv => acc +:+ "- " +:+ fst kv +:+ ": " +:+ py_str (snd kv) +:+ LF)
           (default [] additional_context)
           (task_description +:+ LF +:+ LF +:+ "Additional context:" +:+ LF)
    else task_description in
  let action_log : list string := [] in
  match agent_run contextualized_task w with
  | (Return results, w') =>
      ((true,
        <["completed" := PyBool true]> (<["results" := results]> ∅),
        action_log), w')
  | (Raise e, w') =>
      ((false,
        <["error" := PyStr (exn_str e)]> (<["completed" := PyBool false]> ∅),
        action_log), w')
  end.

End Agent.

Section Confirmation.

Context {W : Type}.

(** The outside together with the record of what was asked of it. *)
Record world : Type := { outside : W; log : list event }.

(** [self.execute_task], the execution collaborator: any implementation
    of the method, the one above or a substitute. *)
Variable execute_task : string -> option context -> W -> outcome * W.
(** [confirmation_callback(options)]: a selection, or a false value
    for none. *)
Variable confirmation_callback : pyval -> W -> result pyval * W.

Definition call_execute_task (task_description : string)
    (additional_context : option context) (w : world) : outcome * world :=
  let (o, out) := execute_task task_description additional_context (outside w) in
  (o, {| outside := out;
         log := log w ++ [ExecuteTask task_description additional_context] |}).

Definition call_confirmation (options : pyval) (w : world) : result pyval * world :=
  let (r, out) := confirmation_callback options (outside w) in
  (r, {| outside := out; log := log w ++ [AskConfirmation options] |}).

Definition handle_task_with_confirmation (task_description : string)
    (additional_context : option context) (w : world) : result outcome * world :=
  let '((success, results, actions), w1) :=
    call_execute_task task_description additional_context w in
  if success && truthy (dict_get results "needs_confirmation" PyNone) then
    let options := dict_get results "confirmation_options" empty_list in
    match call_confirmation options w1 with
    | (Raise e, w2) => (Raise e, w2)
    | (Return confirmation_result, w2) =>
        if truthy confirmation_result then
          let updated_context :=
            if context_truthy additional_context
            then default [] additional_context
            else [] in
          let updated_context :=
            dict_set "user_confirmation" confirmation_result updated_context in
          let continue_task :=
            task_description +:+ LF +:+ LF +:+ "Confirmation received: "
            +:+ py_str confirmation_result in
          let (o, w3) := call_execute_task continue_task (Some updated_context) w2 in
          (Return o, w3)
        else (Return (success, results, actions), w2)
    end
  else (Return (success, results, actions), w1).

End Confirmation.

End TaskExecutor.

(** ** [workflows/agent_workflow.py]: the state *)

Module AgentState.

(** [HumanMessage(content=...)] and [AIMessage(content=...)]. *)
Inductive chat_message : Type :=
| HumanMessage (content : string)
| AIMessage (content : string).

(** The pydantic model [AgentState], field by field. *)
Record t : Type := {
  email_data : gmap string pyval;
  conversation_history : list chat_message;
  task : string;
  task_details : option (gmap string pyval);
  needs_clarification : bool;
  clarification_questions : option (list string);
  browser_state : option (gmap string pyval);
  action_log : list string;
  completed : bool;
  results : option (gmap string pyval);
  error : option string
}.

(** Attribute assignments [state.f = v]. *)
Definition set_conversation_history (v : list chat_message) (s : t) : t :=
  {| email_data := email_data s; conversation_history := v; task := task s;
     task_details := task_details s; needs_clarification := needs_clarification s;
     clarification_questions := clarification_questions s;
     browser_state := browser_state s; action_log := action_log s;
     completed := completed s; results := results s; error := error s |}.

Definition set_task_details (v : option (gmap string pyval)) (s : t) : t :=
  {| email_data := email_data s; conversation_history := conversation_history s;
     task := task s; task_details := v;
     needs_clarification := needs_clarification s;
     clarification_questions := clarification_questions s;
     browser_state := browser_state s; action_log := action_log s;
     completed := completed s; results := results s; error := error s |}.

Definition set_needs_clarification (v : bool) (s : t) : t :=
  {| email_data := email_data s; conversation_history := conversation_history s;
     task := task s; task_details := task_details s; needs_clarification := v;
     clarification_questions := clarification_questions s;
     browser_state := browser_state s; action_log := action_log s;
     completed := completed s; results := results s; error := error s |}.

Definition set_clarification_questions (v : option (list string)) (s : t) : t :=
  {| email_data := email_data s; conversation_history := conversation_history s;
     task := task s; task_details := task_details s;
     needs_clarification := needs_clarification s; clarification_questions := v;
     browser_state := browser_state s; action_log := action_log s;
     completed := completed s; results := results s; error := error s |}.

Definition set_browser_state (v : option (gmap string pyval)) (s : t) : t :=
  {| email_data := email_data s; conversation_history := conversation_history s;
     task := task s; task_details := task_details s;
     needs_clarification := needs_clarification s;
     clarification_questions := clarification_questions s;
     browser_state := v; action_log := action_log s;
     completed := completed s; results := results s; error := error s |}.

Definition set_action_log (v : list string) (s : t) : t :=
  {| email_data := email_data s; conversation_history := conversation_history s;
     task := task s; task_details := task_details s;
     needs_clarification := needs_clarification s;
     clarification_questions := clarification_questions s;
     browser_state := browser_state s; action_log := v;
     completed := completed s; results := results s; error := error s |}.

Definition set_completed (v : bool) (s : t) : t :=
  {| email_data := email_data s; conversation_history := conversation_history s;
     task := task s; task_details := task_details s;
     needs_clarification := needs_clarification s;
     clarification_questions := clarification_questions s;
     browser_state := browser_state s; action_log := action_log s;
     completed := v; results := results s; error := error s |}.

Definition set_results (v : option (gmap string pyval)) (s : t) : t :=
  {| email_data := email_data s; conversation_history := conversation_history s;
     task := task s; task_details := task_details s;
     needs_clarification := needs_clarification s;
     clarification_questions := clarification_questions s;
     browser_state := browser_state s; action_log := action_log s;
     completed := completed s; results := v; error := error s |}.

Definition set_error (v : option string) (s : t) : t :=
  {| email_data := email_data s; conversation_history := conversation_history s;
     task := task s; task_details := task_details s;
     needs_clarification := needs_clarification s;
     clarification_questions := clarification_questions s;
     browser_state := browser_state s; action_log := action_log s;
     completed := completed s; results := results s; error := v |}.

(** The keys of [state.model_dump()]: every field of the model, set or
    not, in declaration order. *)
Definition model_dump_keys : list string :=
  ["email_data"; "conversation_history"; "task"; "task_details";
   "needs_clarification"; "clarification_questions"; "browser_state";
   "action_log"; "completed"; "results"; "error"].

(** A keyword argument written out at a call [AgentState(..., name=v)]. *)
Inductive kwarg : Type :=
| kw_task_details (v : option (gmap string pyval))
| kw_needs_clarification (v : bool)
| kw_browser_state (v : option (gmap string pyval))
| kw_action_log (v : list string)
| kw_completed (v : bool)
| kw_error (v : option string).

Definition kwarg_name (k : kwarg) : string :=
  match k with
  | kw_task_details _ => "task_details"
  | kw_needs_clarification _ => "needs_clarification"
  | kw_browser_state _ => "browser_state"
  | kw_action_log _ => "action_log"
  | kw_completed _ => "completed"
  | kw_error _ => "error"
  end.

Definition apply_kwarg (s : t) (k : kwarg) : t :=
  match k with
  | kw_task_details v => set_task_details v s
  | kw_needs_clarification v => set_needs_clarification v s
  | kw_browser_state v => set_browser_state v s
  | kw_action_log v => set_action_log v s
  | kw_completed v => set_completed v s
  | kw_error v => set_error v s
  end.

(** The name under which CPython reports the class in a [TypeError]: the
    class with its module, as imported from the root of the repository. *)
Definition qualname : string := "src.workflows.agent_workflow.AgentState".

(** Where a call stands: in ordinary code, or in an [except] block, while
    an exception is being handled. CPython merges the keywords of a call
    with a dictionary update that signals a name given twice by [KeyError]
    and then turns that into the [TypeError] of the language; CPython 3.11
    does not turn it while an exception is being handled, and the
    [KeyError] comes out. [keyerror_leaks] is true for such an
    interpreter. *)
Inductive call_site : Type :=
| Ordinary
| Handling (keyerror_leaks : bool).

(** What a call raises that is given keyword [kw] twice. *)
Definition duplicate_keyword (site : call_site) (kw : string) : exn :=
  match site with
  | Handling true => KeyError kw
  | _ => TypeError_multiple_values qualname kw
  end.

(** The call of [AgentState] on the unpacked mapping [state.model_dump()]
    followed by the written-out keywords [k1=v1, ..., kn=vn].
    Python merges the written-out keywords into the unpacked mapping and
    raises at the first one whose name the mapping already holds; the model
    is only built when no name is given twice. *)
Definition rebuild (site : call_site) (state : t) (explicit : list kwarg)
  : result t :=
  match List.find
          (fun k => existsb (String.eqb (kwarg_name k)) model_dump_keys)
          explicit with
  | Some k => Raise (duplicate_keyword site (kwarg_name k))
  | None => Return (fold_left apply_kwarg explicit state)
  end.

End AgentState.

(** ** [workflows/agent_workflow.py]: the nodes and [run] *)

Module AgentWorkflow.

Import AgentState.

(** *** Node implementations *)

(** [analyze_task] (lines 110-141). *)
Definition analyze_task (state : AgentState.t) : result AgentState.t :=
  match task_details state with
  | None =>
      let task_details := <["interpreted" := PyBool true]> (∅ : gmap string pyval) in
      rebuild Ordinary state
        [kw_task_details (Some task_details);
         kw_needs_clarification (needs_clarification state)]
  | Some _ => Return state
  end.

(** Truth of [state.clarification_questions]: a list with an element. *)
Definition has_questions (state : AgentState.t) : bool :=
  match clarification_questions state with
  | Some (_ :: _) => true
  | _ => false
  end.

(** The text built at lines 162-164. *)
Definition question_text (questions : list string) : string :=
  "I need some clarification:" +:+ LF
  +:+ join LF (map (fun q => "- " +:+ q) questions).

(** [request_clarification] (lines 143-173). *)
Definition request_clarification (state : AgentState.t) : AgentState.t :=
  if has_questions state then
    let text := question_text (default [] (clarification_questions state)) in
    let state :=
      set_conversation_history (conversation_history state ++ [AIMessage text]) state in
    set_needs_clarification false state
  else state.

(** [execute_task] (lines 175-201). *)
Definition execute_task (state : AgentState.t) : result AgentState.t :=
  let browser_state := <["executed" := PyBool true]> (∅ : gmap string pyval) in
  let action_log := ["Opened browser"; "Performed action"; "Completed task"] in
  rebuild Ordinary state
    [kw_browser_state (Some browser_state);
     kw_action_log action_log;
     kw_completed true].

(** The test of line 219. *)
Definition executed (state : AgentState.t) : bool :=
  match browser_state state with
  | Some d =>
      negb (bool_decide (d = ∅))
      && truthy (default (PyBool false) (d !! "executed"))
  | None => false
  end.

(** [handle_execution_results] (lines 203-235). *)
Definition handle_execution_results (state : AgentState.t) : AgentState.t :=
  if executed state then
    set_results
      (Some (<["success" := PyBool true]>
             (<["summary" := PyStr "Task completed successfully"]>
             (<["details" :=
                  PyStr "Browser automation task was executed as requested."]> ∅))))
      state
  else
    let state := set_needs_clarification true state in
    let state :=
      set_clarification_questions
        (Some ["Could you provide more details about the task?"]) state in
    set_error (Some "Failed to execute the task") state.

(** [prepare_report] (lines 237-259). *)
Definition prepare_report (state : AgentState.t) : result AgentState.t :=
  match results state with
  | None => Raise (AttributeError_NoneType "get")
  | Some r =>
      let report_text :=
        "Task completed! Here's a summary:" +:+ LF +:+ LF
        +:+ py_str (default (PyStr EmptyString) (r !! "summary")) in
      Return (set_conversation_history
                (conversation_history state ++ [AIMessage report_text]) state)
  end.

(** *** Routing predicates *)

(** [needs_clarification] (lines 263-273), the method. *)
Definition needs_clarification (state : AgentState.t) : bool :=
  AgentState.needs_clarification state.

(** [is_execution_complete] (lines 275-285). *)
Definition is_execution_complete (state : AgentState.t) : bool :=
  completed state && negb (AgentState.needs_clarification state).

(** *** [run] *)

(** [_build_workflow_graph] (lines 56-106) is a sequence of calls on the
    LangGraph builder and is not embedded. Its two calls of
    [add_conditional_edges] give the table where the builder takes the
    routing function and the method where it takes the table, so nothing is
    said here of a graph built by it: [run] is taken on whatever object
    [self.graph] holds. *)

Section Run.

(** [self.graph.ainvoke(initial_state)]. *)
Variable graph_ainvoke : AgentState.t -> result AgentState.t.
(** Whether the interpreter lets the [KeyError] of a keyword given twice
    out of an [except] block (CPython 3.11 does). *)
Variable keyerror_leaks : bool.

(** [run] (lines 289-311). *)
Definition run (initial_state : AgentState.t) : result AgentState.t :=
  try_except
    (graph_ainvoke initial_state)
    (fun e =>
       rebuild (Handling keyerror_leaks) initial_state
         [kw_error (Some (exn_str e))]).

End Run.

End AgentWorkflow.


(** ** [email_monitor.py] *)

Module EmailMonitor.

(** What this code reads of one node of a parsed message: the header
    fields, and what [get_content_type()] and [get_content_charset()]
    return for it. *)
Record part_info : Type := {
  headers : list (string * string);
  content_type : string;
  content_charset : option string
}.

(** An [email.message.Message]: a leaf with the bytes that
    [get_payload(decode=True)] returns for it, or a multipart container. *)
#[warnings="-register-all"]
Inductive message : Type :=
| Leaf (info : part_info) (payload : option (list Byte.byte))
| Multipart (info : part_info) (subparts : list message).

Definition info (m : message) : part_info :=
  match m with
  | Leaf i _ => i
  | Multipart i _ => i
  end.

Definition is_multipart (m : message) : bool :=
  match m with
  | Leaf _ _ => false
  | Multipart _ _ => true
  end.

(** [get_payload(decode=True)]: [None] on a container. *)
Definition get_payload (m : message) : option (list Byte.byte) :=
  match m with
  | Leaf _ payload => payload
  | Multipart _ _ => None
  end.

(** [walk()]: the node, then its subparts in depth-first order. *)
Fixpoint walk (m : message) : list message :=
  m :: match m with
       | Leaf _ _ => []
       | Multipart _ subparts =>
           (fix walk_all (l : list message) : list message :=
              match l with
              | [] => []
              | p :: rest => (walk p ++ walk_all rest)%list
              end) subparts
       end.

(** [str.lower()] on the ASCII letters of a header name. *)
Definition lower_char (c : ascii) : ascii :=
  let n := nat_of_ascii c in
  if Nat.leb 65 n && Nat.leb n 90 then ascii_of_nat (n + 32) else c.

Fixpoint lower (s : string) : string :=
  match s with
  | EmptyString => EmptyString
  | String c rest => String (lower_char c) (lower rest)
  end.

(** [m.get(name, default)]: the first field of that name, names compared
    without regard to case. *)
Definition get (m : message) (name dflt : string) : string :=
  match List.find (fun h => String.eqb (lower (fst h)) (lower name))
          (headers (info m)) with
  | Some h => snd h
  | None => dflt
  end.

(** [needle in hay]. *)
Definition contains (needle hay : string) : bool :=
  match String.index 0 needle hay with
  | Some _ => true
  | None => false
  end.

(** Truth of a [bytes] value or [None]. *)
Definition payload_truthy (payload : option (list Byte.byte)) : bool :=
  match payload with
  | Some (_ :: _) => true
  | _ => false
  end.

(** ASCII whitespace, on which [bytes.split()] splits. *)
Definition is_space (c : ascii) : bool :=
  let n := nat_of_ascii c in
  Nat.eqb n 32 || (Nat.leb 9 n && Nat.leb n 13).

(** [raw.split()]: the maximal runs without whitespace, in order. *)
Fixpoint split_from (s word : string) : list string :=
  match s with
  | EmptyString =>
      if String.eqb word EmptyString then [] else [word]
  | String c rest =>
      if is_space c
      then if String.eqb word EmptyString
           then split_from rest EmptyString
           else word :: split_from rest EmptyString
      else split_from rest (word +:+ String c EmptyString)
  end.

Definition split (s : string) : list string := split_from s EmptyString.

(** One element of what [decode_header] returns. *)
Inductive chunk : Type :=
| Bytes (b : list Byte.byte)
| Text (s : string).

(** The dict handed to the callback (lines 84-92). *)
Record email : Type := {
  message_id : string;
  in_reply_to : string;
  references : string;
  subject : string;
  sender : string;
  body : string;
  raw_email : message
}.

(** What the monitor does to the outside, in order. *)
Inductive event : Type :=
| Opened
| Searched
| Fetched (num : string)
| Delivered (mail : email)
| Closed
| LoggedError (e : exn).

Section Codecs.

(** [b.decode(encoding)] when the flag is false and
    [b.decode(encoding, errors='replace')] when it is true. *)
Variable bytes_decode : bool -> string -> list Byte.byte -> result string.
(** [email.header.decode_header]. *)
Variable decode_header : string -> list (chunk * option string).

(** The decoding of one chunk (lines 123-129). *)
Definition decode_chunk (c : chunk * option string) : result string :=
  match fst c with
  | Bytes b =>
      if str_truthy (snd c)
      then bytes_decode false (default EmptyString (snd c)) b
      else bytes_decode true "utf-8" b
  | Text s => Return s
  end.

Fixpoint decode_chunks (chunks : list (chunk * option string))
  : result (list string) :=
  match chunks with
  | [] => Return []
  | c :: rest =>
      part <- decode_chunk c ;;
      parts <- decode_chunks rest ;;
      Return (part :: parts)
  end.

(** [_decode_header_value] (lines 108-131). *)
Definition _decode_header_value (header_value : string) : result string :=
  if negb (str_truthy (Some header_value)) then Return EmptyString
  else
    decoded_parts <- decode_chunks (decode_header header_value) ;;
    Return (String.concat EmptyString decoded_parts).

(** Lines 159-160, 166-167 and 173-174: the charset of the part, UTF-8
    when it names none, undecodable bytes replaced. *)
Definition decode_payload (part : message) (payload : list Byte.byte)
  : result string :=
  let charset :=
    if str_truthy (content_charset (info part))
    then default EmptyString (content_charset (info part))
    else "utf-8" in
  bytes_decode true charset payload.

(** The loop of lines 147-168 over the parts still to visit, with the
    body found so far. *)
Fixpoint extract_loop (parts : list message) (body : string) : result string :=
  match parts with
  | [] => Return body
  | part :: rest =>
      let content_disposition := get part "Content-Disposition" EmptyString in
      if contains "attachment" content_disposition then extract_loop rest body
      else if String.eqb (content_type (info part)) "text/plain" then
        if payload_truthy (get_payload part)
        then decode_payload part (default [] (get_payload part))
        else extract_loop rest body
      else if String.eqb (content_type (info part)) "text/html"
              && negb (str_truthy (Some body)) then
        if payload_truthy (get_payload part)
        then body' <- decode_payload part (default [] (get_payload part)) ;;
             extract_loop rest body'
        else extract_loop rest body
      else extract_loop rest body
  end.

(** [_extract_email_body] (lines 133-176). *)
Definition _extract_email_body (email_message : message) : result string :=
  if is_multipart email_message
  then extract_loop (walk email_message) EmptyString
  else if payload_truthy (get_payload email_message)
       then decode_payload email_message (default [] (get_payload email_message))
       else Return EmptyString.

End Codecs.

Section Mailbox.

(** State of everything outside the process: the mailbox, the network,
    whatever the callback touches. *)
Context {W : Type}.

(** The outside together with the record of what was asked of it. *)
Record world : Type := { outside : W; log : list event }.

(** [IMAP4_SSL(...)], [login] and [select('inbox')] (lines 58-60). *)
Variable imap_open : W -> result unit * W.
(** [mail.search(None, '(UNSEEN)')]: the status and [messages[0]]. *)
Variable imap_search : W -> result (string * string) * W.
(** [mail.fetch(num, '(RFC822)')] and [data[0][1]]. *)
Variable imap_fetch : string -> W -> result (list Byte.byte) * W.
(** [email.message_from_bytes]. *)
Variable message_from_bytes : list Byte.byte -> message.
Variable bytes_decode : bool -> string -> list Byte.byte -> result string.
Variable decode_header : string -> list (chunk * option string).
(** The coroutine given to [start_monitoring]. *)
Variable callback : email -> W -> result unit * W.
(** [mail.close()] and [mail.logout()] (lines 95-96). *)
Variable imap_close : W -> result unit * W.

(** A call on the outside, recorded. *)
Definition call {A : Type} (ev : event) (op : W -> result A * W) (w : world)
  : result A * world :=
  let (r, out) := op (outside w) in
  (r, {| outside := out; log := log w ++ [ev] |}).

(** A computation inside the process. *)
Definition pure {A : Type} (r : result A) (w : world) : result A * world := (r, w).

Definition and_then {A B : Type} (m : world -> result A * world)
    (k : A -> world -> result B * world) (w : world) : result B * world :=
  match m w with
  | (Return a, w') => k a w'
  | (Raise e, w') => (Raise e, w')
  end.

(** The body of the [for] loop (lines 69-92) for one message number. *)
Definition process_message (num : string) : world -> result unit * world :=
  and_then (call (Fetched num) (imap_fetch num)) (fun data =>
  let email_message := message_from_bytes data in
  and_then (pure (_decode_header_value bytes_decode decode_header
                    (get email_message "Subject" EmptyString))) (fun subject =>
  and_then (pure (_decode_header_value bytes_decode decode_header
                    (get email_message "From" EmptyString))) (fun sender =>
  let message_id := get email_message "Message-ID" EmptyString in
  let in_reply_to := get email_message "In-Reply-To" EmptyString in
  let references := get email_message "References" EmptyString in
  and_then (pure (_extract_email_body bytes_decode email_message)) (fun body =>
  let mail := {| message_id := message_id; in_reply_to := in_reply_to;
                 references := references; subject := subject;
                 sender := sender; body := body;
                 raw_email := email_message |} in
  call (Delivered mail) (callback mail))))).

Fixpoint process_all (nums : list string) : world -> result unit * world :=
  match nums with
  | [] => pure (Return tt)
  | num :: rest => and_then (process_message num) (fun _ => process_all rest)
  end.

(** The [try] block of one pass of the loop (lines 57-96). *)
Definition attempt_cycle : world -> result unit * world :=
  and_then (call Opened imap_open) (fun _ =>
  and_then (call Searched imap_search) (fun found =>
  let status := fst found in
  let raw := snd found in
  and_then (if String.eqb status "OK" && str_truthy (Some raw)
            then process_all (split raw)
            else pure (Return tt)) (fun _ =>
  call Closed imap_close))).

(** One pass of the [while] loop up to the sleep (lines 56-98): whatever
    is raised is logged and dropped. *)
Definition poll_cycle (w : world) : world :=
  match attempt_cycle w with
  | (Return _, w') => w'
  | (Raise e, w') => {| outside := outside w'; log := log w' ++ [LoggedError e] |}
  end.

End Mailbox.

End EmailMonitor.

(** * Vocabulary of the properties *)

Import AgentState.

(** ** Execution outcomes *)

(** Reading an execution outcome. *)
Definition succeeded (o : TaskExecutor.outcome) : bool := fst (fst o).
Definition reports_needs_confirmation (o : TaskExecutor.outcome) : bool :=
  truthy (TaskExecutor.dict_get (snd (fst o)) "needs_confirmation" PyNone).
Definition confirmation_options (o : TaskExecutor.outcome) : pyval :=
  TaskExecutor.dict_get (snd (fst o)) "confirmation_options" empty_list.

(** The second request sent to the executor once [selection] is known. *)
Definition continued_task (task_description : string) (selection : pyval) : string :=
  task_description +:+ LF +:+ LF +:+ "Confirmation received: " +:+ py_str selection.
Definition confirmed_context (additional_context : option TaskExecutor.context)
    (selection : pyval) : TaskExecutor.context :=
  TaskExecutor.dict_set "user_confirmation" selection
    (if TaskExecutor.context_truthy additional_context
     then default [] additional_context
     else []).

(** ** Simulated collaborators *)

(** An execution that always succeeds and always asks for a confirmation. *)
Definition always_asks (_ : string) (_ : option TaskExecutor.context) (w : unit)
  : TaskExecutor.outcome * unit :=
  ((true,
    <["needs_confirmation" := PyBool true]>
      (<["confirmation_options" := PyObj true "['Job A', 'Job B']"]> ∅),
    ["Listed the jobs"]), w).

(** An execution that fails and still reports [needs_confirmation]. *)
Definition fails_and_asks (_ : string) (_ : option TaskExecutor.context) (w : unit)
  : TaskExecutor.outcome * unit :=
  ((false,
    <["needs_confirmation" := PyBool true]>
      (<["error" := PyStr "page timed out"]> ∅),
    []), w).

(** A user who picks an option, and one who gives no answer. *)
Definition picks_job_a (_ : pyval) (w : unit) : result pyval * unit :=
  (Return (PyStr "Job A"), w).
Definition gives_no_answer (_ : pyval) (w : unit) : result pyval * unit :=
  (Return PyNone, w).

Definition fresh_world : TaskExecutor.world :=
  {| TaskExecutor.outside := tt; TaskExecutor.log := [] |}.

(** ** Results *)

(** [s.result.success] in the words of the specification: the ["success"]
    entry of [results], false when there are no results. *)
Definition result_success (s : AgentState.t) : bool :=
  match results s with
  | Some r => truthy (default PyNone (r !! "success"))
  | None => false
  end.

(** ** Sample states *)

(** A state as a caller builds it from a first mail. *)
Definition fresh_state : AgentState.t := {|
  email_data := <["message_id" := PyStr "<m1@mail>"]> ∅;
  conversation_history := [HumanMessage "Find me a job"];
  task := "Find me a job";
  task_details := None;
  needs_clarification := false;
  clarification_questions := None;
  browser_state := None;
  action_log := [];
  completed := false;
  results := None;
  error := None
|}.

(** An interpreted task with one open question. *)
Definition asking_state : AgentState.t :=
  set_clarification_questions (Some ["Which job title?"])
    (set_needs_clarification true
       (set_task_details (Some (<["interpreted" := PyBool true]> ∅)) fresh_state)).

(** A state as [execute_task] is written to leave it. *)
Definition executed_state : AgentState.t :=
  set_completed true
    (set_action_log ["Opened browser"; "Performed action"; "Completed task"]
       (set_browser_state (Some (<["executed" := PyBool true]> ∅))
          (set_task_details (Some (<["interpreted" := PyBool true]> ∅)) fresh_state))).

(** A graph whose invocation fails. *)
Definition failing_graph (_ : AgentState.t) : result AgentState.t :=
  Raise (ServiceError "boom").


(** ** Task descriptions and contexts *)

(** The lines [f"- {key}: {value}\n"] of a context, in insertion order. *)
Definition context_lines (c : TaskExecutor.context) : string :=
  String.concat EmptyString
    (map (fun kv => "- " +:+ fst kv +:+ ": " +:+ py_str (snd kv) +:+ LF) c).

(** The task text that reaches the browser agent. *)
Definition described_task (task_description : string)
    (additional_context : option TaskExecutor.context) : string :=
  if TaskExecutor.context_truthy additional_context
  then task_description +:+ LF +:+ LF +:+ "Additional context:" +:+ LF
       +:+ context_lines (default [] additional_context)
  else task_description.

(** [d.get(key)] on a context. *)
Definition dict_lookup (key : string) (d : TaskExecutor.context) : option pyval :=
  snd <$> List.find (fun kv => String.eqb (fst kv) key) d.


(** A confirmation channel that fails. *)
Definition hangs_up (_ : pyval) (w : unit) : result pyval * unit :=
  (Raise (ServiceError "channel closed"), w).


(** ** Parts of an inbound message *)

(** A part the loop of [_extract_email_body] passes over as an attachment. *)
Definition marked_attachment (p : EmailMonitor.message) : bool :=
  EmailMonitor.contains "attachment"
    (EmailMonitor.get p "Content-Disposition" EmptyString).

(** A part whose payload the loop takes as plain text: not an attachment,
    of type [text/plain], with a non-empty payload. *)
Definition usable_plain (p : EmailMonitor.message) : bool :=
  negb (marked_attachment p)
  && String.eqb (EmailMonitor.content_type (EmailMonitor.info p)) "text/plain"
  && EmailMonitor.payload_truthy (EmailMonitor.get_payload p).

(** The same for [text/html]. *)
Definition usable_html (p : EmailMonitor.message) : bool :=
  negb (marked_attachment p)
  && String.eqb (EmailMonitor.content_type (EmailMonitor.info p)) "text/html"
  && EmailMonitor.payload_truthy (EmailMonitor.get_payload p).

(** The payload bytes of a part, none as the empty sequence. *)
Definition payload_bytes (p : EmailMonitor.message) : list Byte.byte :=
  default [] (EmailMonitor.get_payload p).

(** The message numbers fetched and the mails delivered in a log. *)
Definition fetched (log : list EmailMonitor.event) : list string :=
  omap (fun ev => match ev with
                  | EmailMonitor.Fetched num => Some num
                  | _ => None
                  end) log.

Definition delivered (log : list EmailMonitor.event) : list EmailMonitor.email :=
  omap (fun ev => match ev with
                  | EmailMonitor.Delivered mail => Some mail
                  | _ => None
                  end) log.

(** Searching, fetching and delivering, as opposed to opening, closing and
    logging an error. *)
Definition is_traffic (ev : EmailMonitor.event) : bool :=
  match ev with
  | EmailMonitor.Searched | EmailMonitor.Fetched _ | EmailMonitor.Delivered _ => true
  | _ => false
  end.

(** ** Sample messages *)

(** A codec table that knows UTF-8 only, and reads it as ASCII. *)
Definition sample_codec (_ : bool) (encoding : string) (b : list Byte.byte)
  : result string :=
  if String.eqb encoding "utf-8"
  then Return (string_of_list_byte b)
  else Raise (ServiceError ("unknown encoding: " +:+ encoding)).

Definition sample_part (content_type : string) (disposition : option string)
    (text : string) : EmailMonitor.message :=
  EmailMonitor.Leaf
    {| EmailMonitor.headers :=
         match disposition with
         | Some d => [("Content-Disposition", d)]
         | None => []
         end;
       EmailMonitor.content_type := content_type;
       EmailMonitor.content_charset := None |}
    (Some (list_byte_of_string text)).

Definition sample_container (subparts : list EmailMonitor.message)
  : EmailMonitor.message :=
  EmailMonitor.Multipart
    {| EmailMonitor.headers := [("Subject", "Job search")];
       EmailMonitor.content_type := "multipart/mixed";
       EmailMonitor.content_charset := None |}
    subparts.

(** An HTML part, then a plain part, then a plain-text attachment. *)
Definition html_then_plain : EmailMonitor.message :=
  sample_container
    [sample_part "text/html" None "<p>Find me a job</p>";
     sample_part "text/plain" None "Find me a job";
     sample_part "text/plain" (Some "attachment; filename=cv.txt") "My CV"].

(** An HTML part and attachments only. *)
Definition html_only : EmailMonitor.message :=
  sample_container
    [sample_part "text/plain" (Some "attachment; filename=cv.txt") "My CV";
     sample_part "text/html" None "<p>Find me a job</p>";
     sample_part "text/html" None "<p>Second thoughts</p>"].

(** Attachments only. *)
Definition attachments_only : EmailMonitor.message :=
  sample_container
    [sample_part "text/plain" (Some "attachment; filename=cv.txt") "My CV";
     sample_part "image/png" None "PNG"].


(** ** A sample mailbox *)

(** Two unread messages, numbered 1 and 2, and none. *)
Definition two_unread (w : unit) : result (string * string) * unit :=
  (Return ("OK", "1 2"), w).
Definition none_unread (w : unit) : result (string * string) * unit :=
  (Return ("OK", EmptyString), w).

Definition always_ok (w : unit) : result unit * unit := (Return tt, w).

Definition fetch_some (_ : string) (w : unit) : result (list Byte.byte) * unit :=
  (Return (list_byte_of_string "raw"), w).

Definition unencoded_header (h : string)
  : list (EmailMonitor.chunk * option string) :=
  [(EmailMonitor.Text h, None)].

Definition accept_mail (_ : EmailMonitor.email) (w : unit) : result unit * unit :=
  (Return tt, w).

(** A single-part message in a charset the codec table does not know. *)
Definition unknown_charset_message : EmailMonitor.message :=
  EmailMonitor.Leaf
    {| EmailMonitor.headers := [("Subject", "Job search")];
       EmailMonitor.content_type := "text/plain";
       EmailMonitor.content_charset := Some "x-unknown" |}
    (Some (list_byte_of_string "Find me a job")).

Definition quiet_world : EmailMonitor.world :=
  {| EmailMonitor.outside := tt; EmailMonitor.log := [] |}.


(** * Properties *)

(** ** Outbound subjects and threading headers *)

Section EmailSenderProperties.

Import EmailSender.

Lemma str_truthy_Some (o : option string) :
  str_truthy o = true -> exists s, o = Some s /\ s <> EmptyString.
Proof.
  destruct o as [s|]; simpl; [|discriminate].
  intros H. exists s. split; [reflexivity|].
  intros ->. discriminate.
Qed.

Lemma reply_prefix_present (subject : string) :
  String.prefix "Re:" ("Re: " +:+ subject) = true.
Proof. reflexivity. Qed.

(** The rule of lines 145-146 and 209-210, taken alone. *)
Lemma reply_rule_idempotent (subject : string) :
  let rule s := if negb (String.prefix "Re:" s) then "Re: " +:+ s else s in
  rule (rule subject) = rule subject.
Proof.
  intros rule. unfold rule.
  destruct (String.prefix "Re:" subject) eqn:E; unfold negb.
  - now rewrite E.
  - now rewrite reply_prefix_present.
Qed.

(** C7. On a reply (a true [in_reply_to]) the subject rule of both the
    clarification mail and the completion mail is idempotent: computing the
    subject of a subject already computed changes nothing, so no second
    "Re:" is ever put in front. *)
Theorem reply_subject_idempotent (subject : string) (in_reply_to : option string) :
  str_truthy in_reply_to = true ->
  clarification_subject (clarification_subject subject in_reply_to) in_reply_to
    = clarification_subject subject in_reply_to
  /\ completion_subject (completion_subject subject in_reply_to) in_reply_to
    = completion_subject subject in_reply_to.
Proof.
  intros Hreply. unfold clarification_subject, completion_subject.
  rewrite Hreply. cbv beta iota delta [negb].
  split; apply reply_rule_idempotent.
Qed.

Lemma reply_subject_idempotent_witness :
  str_truthy (Some "<m1@mail>") = true
  /\ clarification_subject (clarification_subject "Job search" (Some "<m1@mail>"))
       (Some "<m1@mail>") = "Re: Job search"
  /\ completion_subject (completion_subject "Re: Job search" (Some "<m1@mail>"))
       (Some "<m1@mail>") = "Re: Job search".
Proof.
  split; [reflexivity|].
  destruct (reply_subject_idempotent "Job search" (Some "<m1@mail>") eq_refl)
    as [Hclar _].
  destruct (reply_subject_idempotent "Re: Job search" (Some "<m1@mail>") eq_refl)
    as [_ Hcomp].
  split; [rewrite Hclar | rewrite Hcomp]; reflexivity.
Defined.

(** The check is on the exact characters: a lower-case "re:" is not seen
    as a prefix and gets one "Re:" in front, once. *)
Example reply_subject_case_sensitive :
  clarification_subject "re: hello" (Some "<m1@mail>") = "Re: re: hello"
  /\ clarification_subject "Re: re: hello" (Some "<m1@mail>") = "Re: re: hello".
Proof. split; reflexivity. Qed.

(** Off a reply the fixed label is put in front at every call. *)
Example new_thread_label_accumulates :
  clarification_subject (clarification_subject "Job search" None) None
    = "Clarification needed: Clarification needed: Job search".
Proof. reflexivity. Qed.

(** C8. The message built for a reply (a true [in_reply_to]) carries
    [In-Reply-To] and a [References] header that is the given references
    chain when that is non-empty and the [In-Reply-To] value otherwise; with
    [in_reply_to = "A"] and no references, [References] is "A". *)
Theorem references_header_of_reply
    (email_address recipient subject body : string)
    (in_reply_to references html_body : option string) :
  str_truthy in_reply_to = true ->
  let m := build_message email_address recipient subject body
             in_reply_to references html_body in
  get_header "In-Reply-To" m = in_reply_to
  /\ get_header "References" m
     = (if str_truthy references then references else in_reply_to)
  /\ get_header "References"
       (build_message email_address recipient subject body (Some "A") None html_body)
     = Some "A".
Proof.
  intros Hreply m. subst m. unfold build_message.
  destruct (str_truthy_Some _ Hreply) as (irt & -> & _).
  rewrite Hreply.
  destruct (str_truthy references) eqn:Hrefs.
  - destruct (str_truthy_Some _ Hrefs) as (refs & -> & _).
    destruct (str_truthy html_body); repeat split; reflexivity.
  - destruct (str_truthy html_body); repeat split; reflexivity.
Qed.

Lemma references_header_of_reply_witness :
  str_truthy (Some "A") = true
  /\ get_header "References"
       (build_message "agent@mail" "user@mail" "Re: Job search" "body"
          (Some "A") (Some EmptyString) None) = Some "A"
  /\ get_header "References"
       (build_message "agent@mail" "user@mail" "Re: Job search" "body"
          (Some "B") (Some "A B") None) = Some "A B".
Proof.
  split; [reflexivity|].
  split.
  - exact (proj1 (proj2 (references_header_of_reply "agent@mail" "user@mail"
             "Re: Job search" "body" (Some "A") (Some EmptyString) None eq_refl))).
  - exact (proj1 (proj2 (references_header_of_reply "agent@mail" "user@mail"
             "Re: Job search" "body" (Some "B") (Some "A B") None eq_refl))).
Defined.

(** Without [in_reply_to] and without references no threading header is
    set at all. *)
Example no_threading_headers_on_new_thread :
  get_header "References"
    (build_message "agent@mail" "user@mail" "Job search" "body" None None None) = None
  /\ get_header "In-Reply-To"
    (build_message "agent@mail" "user@mail" "Job search" "body" None None None) = None.
Proof. split; reflexivity. Qed.

(** The helpers hand exactly that message to the SMTP session. *)
Lemma send_clarification_email_message
    (smtp_session : string -> string -> message -> result unit)
    (email_address app_password recipient subject : string)
    (questions : list string) (in_reply_to references : option string) :
  send_clarification_email smtp_session email_address app_password
    recipient subject questions in_reply_to references
  = match smtp_session email_address app_password
            (build_message email_address recipient
               (clarification_subject subject in_reply_to)
               (clarification_body questions) in_reply_to references
               (Some (clarification_html questions))) with
    | Return _ => true
    | Raise _ => false
    end.
Proof. reflexivity. Qed.

End EmailSenderProperties.

(** ** The interpretation fallback *)

Section QueryEngineProperties.

Import QueryEngine.

Variable chain_arun : string -> result string.
Variable parser_parse : string -> result QueryInterpretation.

(** [interpret_query] returns whatever the chain and the parser do. *)
Lemma interpret_query_returns (email_content : string) :
  exists interpretation,
    interpret_query chain_arun parser_parse email_content = Return interpretation.
Proof.
  unfold interpret_query, try_except, bind.
  destruct (chain_arun email_content) as [out|e]; [|eauto].
  destruct (parser_parse out) as [i|e]; eauto.
Qed.

(** C6. When the LLM call raises, or its output does not parse,
    [interpret_query] returns the fallback interpretation, which asks for
    clarification with a non-empty list of questions; nothing is raised. *)
Theorem interpret_query_fallback (email_content : string) :
  (exists e, chain_arun email_content = Raise e)
  \/ (exists llm_output e,
        chain_arun email_content = Return llm_output
        /\ parser_parse llm_output = Raise e) ->
  exists interpretation question more,
    interpret_query chain_arun parser_parse email_content = Return interpretation
    /\ requires_clarification interpretation = true
    /\ clarification_questions interpretation = Some (question :: more)
    /\ question <> EmptyString.
Proof.
  intros Hfail.
  exists fallback_interpretation.
  exists "Could you please provide more details about what you'd like me to do?", [].
  unfold interpret_query, try_except, bind.
  destruct Hfail as [[e He] | (out & e & Hout & He)].
  - rewrite He. repeat split. discriminate.
  - rewrite Hout, He. repeat split. discriminate.
Qed.

End QueryEngineProperties.

Lemma interpret_query_fallback_witness :
  exists interpretation question more,
    QueryEngine.interpret_query
      (fun _ => Return "not json")
      (fun _ => Raise (ServiceError "Failed to parse QueryInterpretation"))
      "Please book something" = Return interpretation
    /\ QueryEngine.requires_clarification interpretation = true
    /\ QueryEngine.clarification_questions interpretation = Some (question :: more)
    /\ question <> EmptyString.
Proof.
  apply (interpret_query_fallback
           (fun _ => Return "not json")
           (fun _ => Raise (ServiceError "Failed to parse QueryInterpretation"))
           "Please book something").
  right. exists "not json", (ServiceError "Failed to parse QueryInterpretation").
  split; reflexivity.
Defined.

(** ** The confirmation sub-protocol *)

Section ConfirmationProperties.

Import TaskExecutor.

Context {W : Type}.
Variable execute_task : string -> option context -> W -> outcome * W.
Variable confirmation_callback : pyval -> W -> result pyval * W.

Lemma executions_app (l1 l2 : list event) :
  executions (l1 ++ l2) = executions l1 + executions l2.
Proof. unfold executions. now rewrite filter_app, length_app. Qed.

Lemma executions_execute (l : list event) task_description additional_context :
  executions (l ++ [ExecuteTask task_description additional_context])
  = executions l + 1.
Proof. rewrite executions_app. reflexivity. Qed.

Lemma executions_ask (l : list event) options :
  executions (l ++ [AskConfirmation options]) = executions l.
Proof.
  rewrite executions_app.
  change (executions [AskConfirmation options]) with 0. lia.
Qed.

(** Whatever the collaborators do, one call of
    [handle_task_with_confirmation] executes the task once or twice. *)
Lemma handle_task_with_confirmation_at_most_twice
    (task_description : string) (additional_context : option context) (w : world) :
  let w' := snd (handle_task_with_confirmation execute_task confirmation_callback
                   task_description additional_context w) in
  executions (log w') = executions (log w) + 1
  \/ executions (log w') = executions (log w) + 2.
Proof.
  unfold handle_task_with_confirmation, call_execute_task, call_confirmation.
  destruct (execute_task task_description additional_context (outside w))
    as [[[success results] actions] out1]; cbn [log outside].
  destruct (success && _);
    [|left; cbn [snd log]; apply executions_execute].
  destruct (confirmation_callback _ out1) as [[selection|e] out2]; cbn [log outside].
  - destruct (truthy selection).
    + destruct (execute_task _ _ out2) as [o out3].
      right. cbn [snd log].
      rewrite executions_execute, executions_ask, executions_execute. lia.
    + left. cbn [snd log]. now rewrite executions_ask, executions_execute.
  - left. cbn [snd log]. now rewrite executions_ask, executions_execute.
Qed.

(** C2, as the code has it. When the first execution succeeds and reports
    [needs_confirmation], and the callback returns a selection (a true
    value), the task is executed exactly twice: first as given, then once
    more with the selection written into the context under
    [user_confirmation]; the outcome of that second execution is returned as
    it is, whatever it reports. *)
Theorem confirmed_task_executed_twice
    (task_description : string) (additional_context : option context) (w : world)
    (first : outcome) (out1 : W) (selection : pyval) (out2 : W) :
  execute_task task_description additional_context (outside w) = (first, out1) ->
  succeeded first = true ->
  reports_needs_confirmation first = true ->
  confirmation_callback (confirmation_options first) out1 = (Return selection, out2) ->
  truthy selection = true ->
  let second :=
    execute_task (continued_task task_description selection)
      (Some (confirmed_context additional_context selection)) out2 in
  let r := handle_task_with_confirmation execute_task confirmation_callback
             task_description additional_context w in
  fst r = Return (fst second)
  /\ executions (log (snd r)) = executions (log w) + 2
  /\ log (snd r)
     = (log w
        ++ [ExecuteTask task_description additional_context;
            AskConfirmation (confirmation_options first);
            ExecuteTask (continued_task task_description selection)
              (Some (confirmed_context additional_context selection))])%list.
Proof.
  intros Hfirst Hsucc Hneeds Hcb Hsel second r. subst second r.
  unfold handle_task_with_confirmation, call_execute_task, call_confirmation.
  rewrite Hfirst. destruct first as [[success results] actions].
  unfold succeeded, reports_needs_confirmation, confirmation_options in *.
  cbn [fst snd log outside] in *.
  rewrite Hsucc, Hneeds. cbn [andb]. rewrite Hcb. cbn [log outside]. rewrite Hsel.
  fold (continued_task task_description selection).
  fold (confirmed_context additional_context selection).
  destruct (execute_task _ _ out2) as [o out3]. cbn [fst snd log].
  rewrite <- !app_assoc. cbn [app].
  repeat split. rewrite executions_app. reflexivity.
Qed.

(** C3, as the code has it. When the first execution reports
    [needs_confirmation] and the callback returns no selection (a false
    value), the outcome of the first execution is returned unchanged -
    success flag and results as the execution reported them, no error put
    in - and the task is not executed again. *)
Theorem unconfirmed_task_returns_first_outcome
    (task_description : string) (additional_context : option context) (w : world)
    (first : outcome) (out1 : W) (selection : pyval) (out2 : W) :
  execute_task task_description additional_context (outside w) = (first, out1) ->
  reports_needs_confirmation first = true ->
  confirmation_callback (confirmation_options first) out1 = (Return selection, out2) ->
  truthy selection = false ->
  let r := handle_task_with_confirmation execute_task confirmation_callback
             task_description additional_context w in
  fst r = Return first
  /\ executions (log (snd r)) = executions (log w) + 1.
Proof.
  intros Hfirst Hneeds Hcb Hsel r. subst r.
  unfold handle_task_with_confirmation, call_execute_task, call_confirmation.
  rewrite Hfirst. destruct first as [[success results] actions].
  unfold reports_needs_confirmation, confirmation_options in *.
  cbn [fst snd log outside] in *.
  rewrite Hneeds. destruct success; cbn [andb].
  - rewrite Hcb. cbn [log outside]. rewrite Hsel. cbn [fst snd log].
    split; [reflexivity|]. now rewrite executions_ask, executions_execute.
  - cbn [fst snd log]. split; [reflexivity|]. apply executions_execute.
Qed.

(** A failed execution is returned as it is, whatever else it reports. *)
Lemma failed_task_returned
    (task_description : string) (additional_context : option context) (w : world)
    (first : outcome) (out1 : W) :
  execute_task task_description additional_context (outside w) = (first, out1) ->
  succeeded first = false ->
  let r := handle_task_with_confirmation execute_task confirmation_callback
             task_description additional_context w in
  fst r = Return first
  /\ log (snd r)
     = (log w ++ [ExecuteTask task_description additional_context])%list.
Proof.
  intros Hfirst Hfail r. subst r.
  unfold handle_task_with_confirmation, call_execute_task.
  rewrite Hfirst. destruct first as [[success results] actions].
  unfold succeeded in Hfail. cbn [fst] in Hfail. subst success.
  cbn. split; reflexivity.
Qed.

End ConfirmationProperties.

Lemma confirmed_task_executed_twice_witness :
  TaskExecutor.executions
    (TaskExecutor.log
       (snd (TaskExecutor.handle_task_with_confirmation always_asks picks_job_a
               "Apply to a job" None fresh_world))) = 2.
Proof.
  exact (proj1 (proj2 (confirmed_task_executed_twice always_asks picks_job_a
           "Apply to a job" None fresh_world
           (fst (always_asks "Apply to a job" None tt)) tt (PyStr "Job A") tt
           eq_refl eq_refl eq_refl eq_refl eq_refl))).
Defined.

(** C2 as stated fails when the execution that reports
    [needs_confirmation] is a failed one: the callback would return a
    selection, but it is never asked and the task is executed once. *)
Lemma failed_execution_not_confirmed :
  let first := fst (fails_and_asks "Apply to a job" None tt) in
  let r := TaskExecutor.handle_task_with_confirmation fails_and_asks picks_job_a
             "Apply to a job" None fresh_world in
  reports_needs_confirmation first = true
  /\ (exists selection,
        fst (picks_job_a (confirmation_options first) tt) = Return selection
        /\ truthy selection = true)
  /\ TaskExecutor.executions (TaskExecutor.log (snd r)) = 1
  /\ TaskExecutor.executions (TaskExecutor.log (snd r)) <> 2.
Proof.
  split; [reflexivity|].
  split; [exists (PyStr "Job A"); split; reflexivity|].
  split; [reflexivity|]. discriminate.
Qed.

Lemma unconfirmed_task_returns_first_outcome_witness :
  fst (TaskExecutor.handle_task_with_confirmation always_asks gives_no_answer
         "Apply to a job" None fresh_world)
  = Return (fst (always_asks "Apply to a job" None tt)).
Proof.
  exact (proj1 (unconfirmed_task_returns_first_outcome always_asks gives_no_answer
           "Apply to a job" None fresh_world
           (fst (always_asks "Apply to a job" None tt)) tt PyNone tt
           eq_refl eq_refl eq_refl eq_refl)).
Defined.

(** C3 as stated fails: no failed outcome, no synthetic error. Without a
    selection the outcome is the first execution's, success flag true and
    no ["error"] entry. *)
Lemma unconfirmed_task_not_failed :
  let first := fst (always_asks "Apply to a job" None tt) in
  reports_needs_confirmation first = true
  /\ fst (gives_no_answer (confirmation_options first) tt) = Return PyNone
  /\ exists o,
       fst (TaskExecutor.handle_task_with_confirmation always_asks gives_no_answer
              "Apply to a job" None fresh_world) = Return o
       /\ succeeded o = true
       /\ snd (fst o) !! "error" = None.
Proof.
  split; [reflexivity|]. split; [reflexivity|].
  eexists. split; [reflexivity|]. split; reflexivity.
Qed.

(** The executor of this repository never reports [needs_confirmation]: its
    results hold ["completed"] and either ["results"] or ["error"]. With it
    the task is executed once. *)
Lemma own_execute_task_never_asks {W : Type}
    (agent_run : string -> W -> result pyval * W)
    (task_description : string) (additional_context : option TaskExecutor.context)
    (w : W) :
  reports_needs_confirmation
    (fst (TaskExecutor.execute_task agent_run task_description additional_context w))
  = false.
Proof.
  unfold TaskExecutor.execute_task.
  destruct (agent_run _ w) as [[r|e] w']; reflexivity.
Qed.

(** ** The workflow nodes *)

Section WorkflowProperties.

(** *** Routing *)

(** C4, as the code has it. [is_execution_complete] is true exactly when
    the [completed] flag is set and [needs_clarification] is not. *)
Theorem is_execution_complete_iff (s : AgentState.t) :
  AgentWorkflow.is_execution_complete s = true
  <-> completed s = true /\ needs_clarification s = false.
Proof.
  unfold AgentWorkflow.is_execution_complete.
  rewrite andb_true_iff, negb_true_iff. reflexivity.
Qed.

(** C4 as stated fails: the predicate does not read [results]; a state
    with the flag set and no results at all is complete for it. *)
Lemma is_execution_complete_ignores_results :
  let s := set_completed true fresh_state in
  ~ (AgentWorkflow.is_execution_complete s = true
     <-> result_success s = true /\ needs_clarification s = false).
Proof.
  intros s [Hcomplete _].
  destruct (Hcomplete eq_refl) as [Hsuccess _]. discriminate Hsuccess.
Qed.

(** The other way round, after [handle_execution_results] the results may
    report success while the predicate is false, the flag being unset. *)
Example success_without_completed_flag :
  let s := AgentWorkflow.handle_execution_results
             (set_completed false executed_state) in
  result_success s = true
  /\ needs_clarification s = false
  /\ AgentWorkflow.is_execution_complete s = false.
Proof. repeat split; reflexivity. Qed.

(** *** What is reported *)






(** *** The clarification node *)

Lemma request_clarification_with_questions (s : AgentState.t) :
  AgentWorkflow.has_questions s = true ->
  AgentWorkflow.request_clarification s
  = set_needs_clarification false
      (set_conversation_history
         (conversation_history s
          ++ [AIMessage (AgentWorkflow.question_text
                           (default [] (clarification_questions s)))])
         s).
Proof. unfold AgentWorkflow.request_clarification. now intros ->. Qed.

Lemma request_clarification_without_questions (s : AgentState.t) :
  AgentWorkflow.has_questions s = false ->
  AgentWorkflow.request_clarification s = s.
Proof. unfold AgentWorkflow.request_clarification. now intros ->. Qed.

(** C1, on the code. The clarification node does not wait for a reply: on
    a state with one open question it appends the question to the history
    and clears [needs_clarification] itself, before it returns. *)
Theorem clarification_does_not_suspend :
  needs_clarification asking_state = true
  /\ needs_clarification (AgentWorkflow.request_clarification asking_state) = false
  /\ conversation_history (AgentWorkflow.request_clarification asking_state)
     = [HumanMessage "Find me a job";
        AIMessage ("I need some clarification:" +:+ LF +:+ "- Which job title?")].
Proof. repeat split. Qed.

(** *** The nodes that rebuild the state *)

(** [analyze_task] returns an interpreted state as it is ... *)
Lemma analyze_task_interpreted (s : AgentState.t) :
  task_details s <> None -> AgentWorkflow.analyze_task s = Return s.
Proof. unfold AgentWorkflow.analyze_task. now destruct (task_details s). Qed.

(** ... and on a state not yet interpreted it gives [task_details] to the
    constructor twice, once unpacked from [model_dump()] and once by name. *)
Lemma analyze_task_uninterpreted (s : AgentState.t) :
  task_details s = None ->
  AgentWorkflow.analyze_task s
  = Raise (TypeError_multiple_values AgentState.qualname "task_details").
Proof. unfold AgentWorkflow.analyze_task. now intros ->. Qed.

(** [execute_task] gives [browser_state] to the constructor twice. *)
Lemma execute_task_raises (s : AgentState.t) :
  AgentWorkflow.execute_task s
  = Raise (TypeError_multiple_values AgentState.qualname "browser_state").
Proof. reflexivity. Qed.

(** C10, on the code. The clarification node clears [needs_clarification]
    and appends the questions to the history when there is a question, and
    returns the state as it is when there is none. But the execution node,
    which stands between the clarification cycle and the end of the
    workflow, returns for no state: it raises [TypeError], having given
    [browser_state] to the constructor twice. *)
Theorem clarification_clears_but_execution_raises (s : AgentState.t) :
  (AgentWorkflow.has_questions s = true ->
   needs_clarification (AgentWorkflow.request_clarification s) = false
   /\ conversation_history (AgentWorkflow.request_clarification s)
      = (conversation_history s
         ++ [AIMessage (AgentWorkflow.question_text
                          (default [] (clarification_questions s)))])%list)
  /\ (AgentWorkflow.has_questions s = false ->
      AgentWorkflow.request_clarification s = s)
  /\ AgentWorkflow.execute_task (AgentWorkflow.request_clarification s)
     = Raise (TypeError_multiple_values AgentState.qualname "browser_state")
  /\ forall s', AgentWorkflow.execute_task s <> Return s'.
Proof.
  split; [|split; [|split]].
  - intros Hq. now rewrite request_clarification_with_questions.
  - apply request_clarification_without_questions.
  - apply execute_task_raises.
  - intros s'. rewrite execute_task_raises. discriminate.
Qed.

Lemma clarification_clears_but_execution_raises_witness :
  needs_clarification (AgentWorkflow.request_clarification asking_state) = false.
Proof.
  exact (proj1 (proj1 (clarification_clears_but_execution_raises asking_state)
                  eq_refl)).
Defined.

(** *** [run] and its exception handler *)

(** The handler of [run] gives [error] to the constructor twice, so it
    raises in its turn, whatever was caught. *)
Lemma run_handler_raises (graph_ainvoke : AgentState.t -> result AgentState.t)
    (keyerror_leaks : bool) (s : AgentState.t) (e : exn) :
  graph_ainvoke s = Raise e ->
  AgentWorkflow.run graph_ainvoke keyerror_leaks s
  = Raise (duplicate_keyword (Handling keyerror_leaks) "error").
Proof. unfold AgentWorkflow.run. now intros ->. Qed.

(** C9, on the code. When the invocation of the graph raises, [run]
    catches the exception, and building the state to return raises a
    second one - [KeyError] on an interpreter that lets it out of the
    handler, the [TypeError] of the language otherwise - which leaves
    [run]: no state is returned. *)
Theorem run_propagates_exception :
  failing_graph fresh_state = Raise (ServiceError "boom")
  /\ AgentWorkflow.run failing_graph true fresh_state = Raise (KeyError "error")
  /\ AgentWorkflow.run failing_graph false fresh_state
     = Raise (TypeError_multiple_values AgentState.qualname "error")
  /\ forall keyerror_leaks s',
       AgentWorkflow.run failing_graph keyerror_leaks fresh_state <> Return s'.
Proof.
  split; [reflexivity|]. split; [reflexivity|]. split; [reflexivity|].
  intros keyerror_leaks s'.
  rewrite (run_handler_raises failing_graph keyerror_leaks fresh_state
             (ServiceError "boom") eq_refl).
  discriminate.
Qed.

End WorkflowProperties.


(** * Further properties *)

(** ** Strings *)

Lemma append_cons (x : ascii) (a b : string) :
  String x a +:+ b = String x (a +:+ b).
Proof. reflexivity. Qed.

Lemma append_assoc (a b c : string) : (a +:+ b) +:+ c = a +:+ (b +:+ c).
Proof.
  induction a as [|x a IH]; [reflexivity|].
  rewrite !append_cons. now f_equal.
Qed.

Lemma append_empty_r (a : string) : a +:+ EmptyString = a.
Proof.
  induction a as [|x a IH]; [reflexivity|].
  rewrite append_cons. now f_equal.
Qed.

Lemma prefix_append (a b : string) : String.prefix a (a +:+ b) = true.
Proof.
  induction a as [|x a IH].
  - now destruct b.
  - rewrite append_cons. cbn [String.prefix].
    destruct (Ascii.ascii_dec x x) as [_|Hne]; [exact IH | congruence].
Qed.

(** ** Outbound mail *)

Section EmailSenderFurther.

Import EmailSender.

(** X1. On a reply the subject of a clarification or completion mail always
    begins with "Re:", whatever subject was given. *)
Theorem reply_subject_begins_with_Re (subject : string) (in_reply_to : option string) :
  str_truthy in_reply_to = true ->
  String.prefix "Re:" (clarification_subject subject in_reply_to) = true
  /\ String.prefix "Re:" (completion_subject subject in_reply_to) = true.
Proof.
  intros Hreply. unfold clarification_subject, completion_subject.
  rewrite Hreply. unfold negb.
  destruct (String.prefix "Re:" subject) eqn:E; split; assumption || reflexivity.
Qed.

Lemma reply_subject_begins_with_Re_witness :
  String.prefix "Re:" (clarification_subject "re: jobs" (Some "<m1@mail>")) = true
  /\ String.prefix "Re:" (completion_subject "re: jobs" (Some "<m1@mail>")) = true.
Proof. exact (reply_subject_begins_with_Re "re: jobs" (Some "<m1@mail>") eq_refl). Defined.

(** X2. Every header and part of a built message, read back: the three
    address and subject fields are the arguments; [In-Reply-To] is present
    exactly when [in_reply_to] is true; [References] is the references when
    true, else [in_reply_to] when true, else absent; the plain part comes
    first and the HTML part follows only when [html_body] is true. *)
Theorem build_message_read_back
    (email_address recipient subject body : string)
    (in_reply_to references html_body : option string) :
  let m := build_message email_address recipient subject body
             in_reply_to references html_body in
  get_header "From" m = Some email_address
  /\ get_header "To" m = Some recipient
  /\ get_header "Subject" m = Some subject
  /\ get_header "In-Reply-To" m
     = (if str_truthy in_reply_to then in_reply_to else None)
  /\ get_header "References" m
     = (if str_truthy references then references
        else if str_truthy in_reply_to then in_reply_to else None)
  /\ parts m
     = ("plain", body)
       :: (if str_truthy html_body
           then [("html", default EmptyString html_body)] else []).
Proof.
  intros m. subst m. unfold build_message.
  destruct in_reply_to as [irt|], references as [refs|], html_body as [html|];
    cbn [str_truthy];
    repeat match goal with
           | |- context [negb (String.eqb ?x EmptyString)] =>
               destruct (negb (String.eqb x EmptyString))
           end;
    repeat split; reflexivity.
Qed.

End EmailSenderFurther.

(** ** Interpretation *)

(** X3. [interpret_query] never raises: it returns the parser's
    interpretation untouched when the LLM call and the parser both return,
    and the same fallback in every other case, whatever was raised. *)
Theorem interpret_query_characterised
    (chain_arun : string -> result string)
    (parser_parse : string -> result QueryEngine.QueryInterpretation)
    (email_content : string) :
  QueryEngine.interpret_query chain_arun parser_parse email_content
  = Return (match chain_arun email_content with
            | Return llm_output =>
                match parser_parse llm_output with
                | Return interpretation => interpretation
                | Raise _ => QueryEngine.fallback_interpretation
                end
            | Raise _ => QueryEngine.fallback_interpretation
            end).
Proof.
  unfold QueryEngine.interpret_query, try_except, bind.
  destruct (chain_arun email_content) as [out|e]; [|reflexivity].
  now destruct (parser_parse out).
Qed.

(** ** Task execution *)

Lemma concat_cons (x : string) (xs : list string) :
  String.concat EmptyString (x :: xs) = x +:+ String.concat EmptyString xs.
Proof.
  destruct xs as [|y ys]; [now rewrite append_empty_r|].
  reflexivity.
Qed.

Lemma dict_lookup_set (key : string) (value : pyval) (d : TaskExecutor.context) :
  dict_lookup key (TaskExecutor.dict_set key value d) = Some value.
Proof.
  unfold dict_lookup. induction d as [|[k v] d IH]; cbn.
  - now rewrite String.eqb_refl.
  - destruct (String.eqb k key) eqn:E; cbn; now rewrite E.
Qed.

Lemma dict_lookup_set_other (key other : string) (value : pyval)
    (d : TaskExecutor.context) :
  other <> key ->
  dict_lookup other (TaskExecutor.dict_set key value d) = dict_lookup other d.
Proof.
  intros Hne. unfold dict_lookup. induction d as [|[k v] d IH]; cbn.
  - destruct (String.eqb key other) eqn:E; [|reflexivity].
    apply String.eqb_eq in E. congruence.
  - destruct (String.eqb k key) eqn:E; cbn.
    + apply String.eqb_eq in E. subst k.
      destruct (String.eqb key other) eqn:E'; [|reflexivity].
      apply String.eqb_eq in E'. congruence.
    + destruct (String.eqb k other); [reflexivity | exact IH].
Qed.

(** X4. The context sent with the second execution holds the selection
    under [user_confirmation], and every other key of the original context
    with the value it had. *)
Theorem confirmed_context_lookup
    (additional_context : option TaskExecutor.context) (selection : pyval) :
  dict_lookup "user_confirmation" (confirmed_context additional_context selection)
  = Some selection
  /\ forall key : string,
       key <> "user_confirmation" ->
       dict_lookup key (confirmed_context additional_context selection)
       = dict_lookup key (default [] additional_context).
Proof.
  unfold confirmed_context. split.
  - apply dict_lookup_set.
  - intros key Hkey. rewrite dict_lookup_set_other by assumption.
    now destruct additional_context as [[|kv c]|].
Qed.

Section TaskExecutorFurther.

Import TaskExecutor.

Context {W : Type}.
Variable agent_run : string -> W -> result pyval * W.

Lemma context_fold (c : context) (acc : string) :
  fold_left
    (fun acc kv => acc +:+ "- " +:+ fst kv +:+ ": " +:+ py_str (snd kv) +:+ LF)
    c acc
  = acc +:+ context_lines c.
Proof.
  revert acc. induction c as [|kv c IH]; intros acc; cbn [fold_left].
  - unfold context_lines. cbn. now rewrite append_empty_r.
  - rewrite IH. unfold context_lines. cbn [map]. rewrite concat_cons.
    now rewrite !append_assoc.
Qed.

(** [execute_task] on the text the agent is given. *)
Lemma execute_task_on_described_task (task_description : string)
    (additional_context : option context) (w : W) :
  execute_task agent_run task_description additional_context w
  = execute_task agent_run
      (described_task task_description additional_context) None w.
Proof.
  unfold execute_task, described_task. cbn [context_truthy].
  destruct (context_truthy additional_context); [|reflexivity].
  rewrite context_fold. now rewrite !append_assoc.
Qed.

(** X5. The browser agent is given the task description first and, when
    the context is a non-empty dict, a heading and one line per key in
    insertion order after it; [None] and the empty dict leave the
    description as it is. Executing with a context is executing the text so
    described without one. *)
Theorem execute_task_described (task_description : string)
    (additional_context : option context) (w : W) :
  execute_task agent_run task_description additional_context w
  = execute_task agent_run
      (described_task task_description additional_context) None w
  /\ String.prefix task_description
       (described_task task_description additional_context) = true
  /\ described_task task_description None = task_description
  /\ described_task task_description (Some []) = task_description.
Proof.
  split; [|split; [|split; reflexivity]].
  - apply execute_task_on_described_task.
  - unfold described_task.
    destruct (context_truthy additional_context).
    + apply prefix_append.
    + rewrite <- (append_empty_r task_description) at 2. apply prefix_append.
Qed.

(** X6. What [execute_task] reports: success exactly when the agent
    returned; ["completed"] equal to the success flag; on success the
    agent's result under ["results"] and no ["error"], on failure the
    message under ["error"] and no ["results"]; never
    ["needs_confirmation"]; and an action log that is always empty. *)
Theorem execute_task_outcome (task_description : string)
    (additional_context : option context) (w : W) :
  let answer := fst (agent_run
                       (described_task task_description additional_context) w) in
  let o := fst (execute_task agent_run task_description additional_context w) in
  let results := snd (fst o) in
  snd o = []
  /\ results !! "completed" = Some (PyBool (succeeded o))
  /\ results !! "needs_confirmation" = None
  /\ match answer with
     | Return r =>
         succeeded o = true
         /\ results !! "results" = Some r /\ results !! "error" = None
     | Raise e =>
         succeeded o = false
         /\ results !! "error" = Some (PyStr (exn_str e))
         /\ results !! "results" = None
     end.
Proof.
  rewrite execute_task_on_described_task.
  unfold execute_task. cbn [context_truthy].
  destruct (agent_run _ w) as [[r|e] w']; cbn [fst snd];
    repeat split; reflexivity.
Qed.

(** X7. With the executor of this repository the confirmation callback is
    never consulted: the task is executed once and its outcome returned. *)
Theorem own_executor_never_confirms
    (confirmation_callback : pyval -> W -> result pyval * W)
    (task_description : string) (additional_context : option context)
    (w : world) :
  let first := execute_task agent_run task_description additional_context
                 (outside w) in
  handle_task_with_confirmation (execute_task agent_run) confirmation_callback
    task_description additional_context w
  = (Return (fst first),
     {| outside := snd first;
        log := log w ++ [ExecuteTask task_description additional_context] |}).
Proof.
  intros first. subst first.
  pose proof (own_execute_task_never_asks agent_run task_description
                additional_context (outside w)) as Hnever.
  unfold handle_task_with_confirmation, call_execute_task.
  destruct (execute_task agent_run task_description additional_context (outside w))
    as [[[success results] actions] out1].
  unfold reports_needs_confirmation in Hnever. cbn [fst snd] in *.
  rewrite Hnever, andb_false_r. reflexivity.
Qed.

End TaskExecutorFurther.

Section ConfirmationFurther.

Import TaskExecutor.

Context {W : Type}.
Variable execute_task : string -> option context -> W -> outcome * W.
Variable confirmation_callback : pyval -> W -> result pyval * W.

(** X8. What one call asks of the outside is one of three sequences: the
    execution alone; the execution and one confirmation request; or the
    execution, one confirmation request and the second execution with the
    confirmed task and context. The callback is never asked twice, never
    before the first execution, and there is no third execution. *)
Theorem handle_task_with_confirmation_trace
    (task_description : string) (additional_context : option context) (w : world) :
  let w' := snd (handle_task_with_confirmation execute_task confirmation_callback
                   task_description additional_context w) in
  let first := ExecuteTask task_description additional_context in
  exists added : list event,
    log w' = (log w ++ added)%list
    /\ (added = [first]
        \/ (exists options, added = [first; AskConfirmation options])
        \/ (exists options selection,
              added = [first; AskConfirmation options;
                       ExecuteTask (continued_task task_description selection)
                         (Some (confirmed_context additional_context selection))])).
Proof.
  unfold handle_task_with_confirmation, call_execute_task, call_confirmation.
  destruct (execute_task task_description additional_context (outside w))
    as [[[success results] actions] out1]; cbn [log outside].
  destruct (success && _).
  2:{ eexists. split; [reflexivity|]. now left. }
  destruct (confirmation_callback _ out1) as [[selection|e] out2]; cbn [log outside].
  - destruct (truthy selection).
    + fold (continued_task task_description selection).
      fold (confirmed_context additional_context selection).
      destruct (execute_task _ _ out2) as [o out3]. cbn [snd log].
      eexists. split; [now rewrite <- !app_assoc|].
      right. right. eauto.
    + cbn [snd log]. eexists. split; [now rewrite <- !app_assoc|].
      right. left. eauto.
  - cbn [snd log]. eexists. split; [now rewrite <- !app_assoc|].
    right. left. eauto.
Qed.

(** X9. When the callback raises, the exception leaves
    [handle_task_with_confirmation]: the outcome of the first execution is
    lost and the task is not executed again. *)
Theorem confirmation_failure_propagates
    (task_description : string) (additional_context : option context) (w : world)
    (first : outcome) (out1 : W) (e : exn) (out2 : W) :
  execute_task task_description additional_context (outside w) = (first, out1) ->
  succeeded first = true ->
  reports_needs_confirmation first = true ->
  confirmation_callback (confirmation_options first) out1 = (Raise e, out2) ->
  handle_task_with_confirmation execute_task confirmation_callback
    task_description additional_context w
  = (Raise e,
     {| outside := out2;
        log := log w ++ [ExecuteTask task_description additional_context;
                         AskConfirmation (confirmation_options first)] |}).
Proof.
  intros Hfirst Hsucc Hneeds Hcb.
  unfold handle_task_with_confirmation, call_execute_task, call_confirmation.
  rewrite Hfirst. destruct first as [[success results] actions].
  unfold succeeded, reports_needs_confirmation, confirmation_options in *.
  cbn [fst snd log outside] in *.
  rewrite Hsucc, Hneeds. cbn [andb]. rewrite Hcb. cbn [log outside].
  now rewrite <- app_assoc.
Qed.

End ConfirmationFurther.

Lemma confirmation_failure_propagates_witness :
  fst (TaskExecutor.handle_task_with_confirmation always_asks hangs_up
         "Apply to a job" None fresh_world)
  = Raise (ServiceError "channel closed").
Proof.
  exact (f_equal fst
           (confirmation_failure_propagates always_asks hangs_up
              "Apply to a job" None fresh_world
              (fst (always_asks "Apply to a job" None tt)) tt
              (ServiceError "channel closed") tt
              eq_refl eq_refl eq_refl eq_refl)).
Defined.

(** ** The workflow, node by node *)

Section WorkflowFurther.


(** X13. What the nodes leave alone. [request_clarification] writes only
    the history, at its end, and [needs_clarification];
    [handle_execution_results] writes only [results], or
    [needs_clarification], the questions and [error]; [prepare_report],
    when it returns, has appended one message to the history and changed
    nothing else. *)
Theorem node_frames (s : AgentState.t) :
  (let s1 := AgentWorkflow.request_clarification s in
   (exists added,
      conversation_history s1 = (conversation_history s ++ added)%list)
   /\ set_needs_clarification (needs_clarification s)
        (set_conversation_history (conversation_history s) s1) = s)
  /\ (let s2 := AgentWorkflow.handle_execution_results s in
      set_results (results s)
        (set_needs_clarification (needs_clarification s)
           (set_clarification_questions (clarification_questions s)
              (set_error (error s) s2))) = s
      /\ (AgentWorkflow.executed s = true ->
          set_results (results s) s2 = s)
      /\ (AgentWorkflow.executed s = false -> results s2 = results s))
  /\ (forall s3, AgentWorkflow.prepare_report s = Return s3 ->
      (exists text,
         conversation_history s3
         = (conversation_history s ++ [AIMessage text])%list)
      /\ set_conversation_history (conversation_history s) s3 = s).
Proof.
  destruct s as [ed hist tk td nc cq bs al cp rs er].
  split; [|split].
  - unfold AgentWorkflow.request_clarification.
    destruct (AgentWorkflow.has_questions _); cbn.
    + split; [eexists; reflexivity | reflexivity].
    + split; [exists []; now rewrite app_nil_r | reflexivity].
  - unfold AgentWorkflow.handle_execution_results.
    destruct (AgentWorkflow.executed _); cbn;
      (split; [reflexivity|]); split; intros; try discriminate; reflexivity.
  - intros s3. unfold AgentWorkflow.prepare_report. cbn.
    destruct rs as [r|]; [|discriminate].
    intros [= <-]. cbn. split; [eexists; reflexivity | reflexivity].
Qed.

Lemma node_frames_witness :
  AgentWorkflow.executed fresh_state = false
  /\ results (AgentWorkflow.handle_execution_results fresh_state)
     = results fresh_state.
Proof.
  split; [reflexivity|].
  exact (proj2 (proj2 (proj1 (proj2 (node_frames fresh_state)))) eq_refl).
Defined.

(** X14. The state that [handle_execution_results] returns is complete
    for [is_execution_complete] exactly when the browser state says
    executed, [completed] is set and [needs_clarification] is not. *)
Theorem handled_state_complete (s : AgentState.t) :
  AgentWorkflow.is_execution_complete (AgentWorkflow.handle_execution_results s)
  = AgentWorkflow.executed s && completed s && negb (needs_clarification s).
Proof.
  unfold AgentWorkflow.is_execution_complete,
    AgentWorkflow.handle_execution_results.
  destruct (AgentWorkflow.executed s); cbn.
  - reflexivity.
  - now rewrite andb_false_r.
Qed.

(** X15. After an execution that did not leave an executed browser state,
    the clarification request always has a question to ask: the state is
    flagged, its questions are replaced by the one generic question, the
    error is recorded, and [request_clarification] then appends that
    question to the history and clears the flag. *)
Theorem failed_execution_asks_generic_question (s : AgentState.t) :
  AgentWorkflow.executed s = false ->
  let s1 := AgentWorkflow.handle_execution_results s in
  let s2 := AgentWorkflow.request_clarification s1 in
  needs_clarification s1 = true
  /\ clarification_questions s1
     = Some ["Could you provide more details about the task?"]
  /\ error s1 = Some "Failed to execute the task"
  /\ results s1 = results s
  /\ needs_clarification s2 = false
  /\ conversation_history s2
     = (conversation_history s
        ++ [AIMessage ("I need some clarification:" +:+ LF
                       +:+ "- Could you provide more details about the task?")])%list.
Proof.
  intros Hexecuted s1 s2. subst s1 s2.
  unfold AgentWorkflow.handle_execution_results. rewrite Hexecuted.
  repeat split.
Qed.

Lemma failed_execution_asks_generic_question_witness :
  needs_clarification (AgentWorkflow.handle_execution_results fresh_state) = true.
Proof.
  exact (proj1 (failed_execution_asks_generic_question fresh_state eq_refl)).
Defined.

(** X16. [prepare_report] after [handle_execution_results] on an executed
    browser state does not raise: the results have just been set to the
    fixed success record, and one report message with its summary is
    appended to the history. *)
Theorem report_after_handling (s : AgentState.t) :
  AgentWorkflow.executed s = true ->
  AgentWorkflow.prepare_report (AgentWorkflow.handle_execution_results s)
  = Return
      (set_conversation_history
         (conversation_history s
          ++ [AIMessage ("Task completed! Here's a summary:" +:+ LF +:+ LF
                         +:+ "Task completed successfully")])
         (AgentWorkflow.handle_execution_results s)).
Proof.
  intros Hexecuted. unfold AgentWorkflow.handle_execution_results.
  rewrite Hexecuted. reflexivity.
Qed.

Lemma report_after_handling_witness :
  exists s',
    AgentWorkflow.prepare_report
      (AgentWorkflow.handle_execution_results executed_state) = Return s'.
Proof.
  eexists. exact (report_after_handling executed_state eq_refl).
Defined.

End WorkflowFurther.

(** ** Body extraction *)

Section ExtractionFurther.

Import EmailMonitor.

Variable bytes_decode : bool -> string -> list Byte.byte -> result string.

Lemma extract_loop_attachment (p : message) (rest : list message) (body : string) :
  marked_attachment p = true ->
  extract_loop bytes_decode (p :: rest) body = extract_loop bytes_decode rest body.
Proof.
  unfold marked_attachment. intros H. cbn [extract_loop]. now rewrite H.
Qed.

(** A part that is neither usable plain text nor usable HTML is passed
    over. *)
Lemma extract_loop_pass (p : message) (rest : list message) (body : string) :
  usable_plain p = false ->
  usable_html p = false ->
  extract_loop bytes_decode (p :: rest) body = extract_loop bytes_decode rest body.
Proof.
  unfold usable_plain, usable_html, marked_attachment. intros Hplain Hhtml.
  cbn [extract_loop].
  destruct (contains "attachment" _); [reflexivity|].
  cbn [negb andb] in Hplain, Hhtml.
  destruct (String.eqb (content_type (info p)) "text/plain").
  - cbn [andb] in Hplain. now rewrite Hplain.
  - destruct (String.eqb (content_type (info p)) "text/html"); [|reflexivity].
    cbn [andb] in Hhtml. rewrite Hhtml. cbn [andb].
    now destruct (negb (str_truthy (Some body))).
Qed.

(** Once a body is found, HTML parts no longer count. *)
Lemma extract_loop_settled (parts : list message) (body : string) :
  (forall q, In q parts -> usable_plain q = false) ->
  body <> EmptyString ->
  extract_loop bytes_decode parts body = Return body.
Proof.
  intros Hplain Hbody. induction parts as [|p rest IH]; [reflexivity|].
  assert (Hp : usable_plain p = false) by (apply Hplain; now left).
  assert (IH' : extract_loop bytes_decode rest body = Return body)
    by (apply IH; intros q Hq; apply Hplain; now right).
  unfold usable_plain, marked_attachment in Hp. cbn [extract_loop].
  destruct (contains "attachment" _); [exact IH'|].
  cbn [negb andb] in Hp.
  destruct (String.eqb (content_type (info p)) "text/plain").
  - cbn [andb] in Hp. now rewrite Hp.
  - assert (Hfull : str_truthy (Some body) = true).
    { cbn. destruct (String.eqb body EmptyString) eqn:E; [|reflexivity].
      apply String.eqb_eq in E. contradiction. }
    rewrite Hfull. cbn [negb]. now rewrite andb_false_r.
Qed.

Lemma extract_loop_plain (pre post : list message) (p : message) (body : string) :
  (forall q, In q pre -> usable_plain q = false) ->
  (forall q, In q pre -> usable_html q = true ->
             exists text, decode_payload bytes_decode q (payload_bytes q) = Return text) ->
  usable_plain p = true ->
  extract_loop bytes_decode (pre ++ p :: post) body
  = decode_payload bytes_decode p (payload_bytes p).
Proof.
  intros Hplain Hdecodes Hp. revert body.
  induction pre as [|q pre IH]; intros body.
  - cbn [app extract_loop]. unfold usable_plain, marked_attachment in Hp.
    apply andb_true_iff in Hp as [Hp Hpayload].
    apply andb_true_iff in Hp as [Hattach Htype].
    apply negb_true_iff in Hattach. now rewrite Hattach, Htype, Hpayload.
  - assert (Hq : usable_plain q = false) by (apply Hplain; now left).
    assert (IH' : forall body,
               extract_loop bytes_decode (pre ++ p :: post) body
               = decode_payload bytes_decode p (payload_bytes p)).
    { apply IH; intros r Hr; [apply Hplain | apply Hdecodes]; now right. }
    destruct (usable_html q) eqn:Hhtml.
    2:{ cbn [app]. rewrite extract_loop_pass by assumption. apply IH'. }
    destruct (Hdecodes q ltac:(now left) Hhtml) as [text Htext].
    unfold usable_plain, usable_html, marked_attachment in Hq, Hhtml.
    cbn [app extract_loop].
    destruct (contains "attachment" _); [apply IH'|].
    cbn [negb andb] in Hq, Hhtml.
    apply andb_true_iff in Hhtml as [Htype Hpayload].
    rewrite Hpayload in Hq. rewrite andb_true_r in Hq. rewrite Hq, Htype.
    cbn [andb]. destruct (negb (str_truthy (Some body))); [|apply IH'].
    rewrite Hpayload. unfold payload_bytes in Htext. rewrite Htext.
    cbn [bind]. apply IH'.
Qed.

(** X17. In a multipart message the body is the text of the first part
    that is not an attachment, is of type [text/plain] and has a payload -
    wherever it stands, HTML parts before it notwithstanding, and nothing
    after it is looked at. If its charset is unknown the extraction raises.
    (The HTML parts before it are decoded on the way, which must not
    fail.) *)
Theorem plain_part_preferred (m : message) (pre post : list message) (p : message) :
  is_multipart m = true ->
  walk m = (pre ++ p :: post)%list ->
  (forall q, In q pre -> usable_plain q = false) ->
  (forall q, In q pre -> usable_html q = true ->
             exists text, decode_payload bytes_decode q (payload_bytes q) = Return text) ->
  usable_plain p = true ->
  _extract_email_body bytes_decode m
  = decode_payload bytes_decode p (payload_bytes p).
Proof.
  intros Hmulti Hwalk Hplain Hdecodes Hp.
  unfold _extract_email_body. rewrite Hmulti, Hwalk.
  now apply extract_loop_plain.
Qed.

Lemma extract_loop_skip (pre rest : list message) (body : string) :
  (forall q, In q pre -> usable_plain q = false /\ usable_html q = false) ->
  extract_loop bytes_decode (pre ++ rest) body = extract_loop bytes_decode rest body.
Proof.
  intros Hpre. induction pre as [|q pre IH]; [reflexivity|].
  cbn [app]. destruct (Hpre q ltac:(now left)) as [Hplain Hhtml].
  rewrite extract_loop_pass by assumption.
  apply IH. intros r Hr. apply Hpre. now right.
Qed.

(** X18. In a multipart message without a usable plain part the body is
    the text of the first usable HTML part, when that text is not empty;
    later HTML parts are not decoded. *)
Theorem html_part_fallback (m : message) (pre post : list message) (p : message)
    (text : string) :
  is_multipart m = true ->
  walk m = (pre ++ p :: post)%list ->
  (forall q, In q (walk m) -> usable_plain q = false) ->
  (forall q, In q pre -> usable_html q = false) ->
  usable_html p = true ->
  decode_payload bytes_decode p (payload_bytes p) = Return text ->
  text <> EmptyString ->
  _extract_email_body bytes_decode m = Return text.
Proof.
  intros Hmulti Hwalk Hplain Hpre Hp Htext Hnonempty.
  unfold _extract_email_body. rewrite Hmulti.
  rewrite Hwalk in Hplain |- *.
  rewrite extract_loop_skip.
  2:{ intros q Hq. split; [apply Hplain, in_or_app; now left | now apply Hpre]. }
  assert (Hp' : usable_plain p = false)
    by (apply Hplain, in_or_app; right; now left).
  unfold usable_plain, usable_html, marked_attachment in Hp, Hp'.
  cbn [extract_loop].
  destruct (contains "attachment" _); [discriminate Hp|].
  cbn [negb andb] in Hp, Hp'.
  apply andb_true_iff in Hp as [Htype Hpayload].
  rewrite Hpayload, andb_true_r in Hp'. rewrite Hp', Htype, Hpayload.
  cbn [andb str_truthy negb String.eqb].
  unfold payload_bytes in Htext. rewrite Htext. cbn [bind].
  apply extract_loop_settled; [|assumption].
  intros q Hq. apply Hplain, in_or_app. right. now right.
Qed.

(** X19. A multipart message in which no part is usable - attachments, other
    content types, parts without payload - has the empty body. *)
Theorem no_usable_part_empty_body (m : message) :
  is_multipart m = true ->
  (forall q, In q (walk m) -> usable_plain q = false /\ usable_html q = false) ->
  _extract_email_body bytes_decode m = Return EmptyString.
Proof.
  intros Hmulti Hnone. unfold _extract_email_body. rewrite Hmulti.
  rewrite <- (app_nil_r (walk m)). now rewrite extract_loop_skip.
Qed.

End ExtractionFurther.

Lemma plain_part_preferred_witness :
  EmailMonitor._extract_email_body sample_codec html_then_plain
  = Return "Find me a job".
Proof.
  apply (plain_part_preferred sample_codec html_then_plain
           [html_then_plain; sample_part "text/html" None "<p>Find me a job</p>"]
           [sample_part "text/plain" (Some "attachment; filename=cv.txt") "My CV"]
           (sample_part "text/plain" None "Find me a job")).
  - reflexivity.
  - reflexivity.
  - intros q [<-|[<-|[]]]; reflexivity.
  - intros q [<-|[<-|[]]] _; eexists; reflexivity.
  - reflexivity.
Defined.

Lemma html_part_fallback_witness :
  EmailMonitor._extract_email_body sample_codec html_only
  = Return "<p>Find me a job</p>".
Proof.
  apply (html_part_fallback sample_codec html_only
           [html_only;
            sample_part "text/plain" (Some "attachment; filename=cv.txt") "My CV"]
           [sample_part "text/html" None "<p>Second thoughts</p>"]
           (sample_part "text/html" None "<p>Find me a job</p>")).
  - reflexivity.
  - reflexivity.
  - intros q [<-|[<-|[<-|[<-|[]]]]]; reflexivity.
  - intros q [<-|[<-|[]]]; reflexivity.
  - reflexivity.
  - reflexivity.
  - discriminate.
Defined.

Lemma no_usable_part_empty_body_witness :
  EmailMonitor._extract_email_body sample_codec attachments_only
  = Return EmptyString.
Proof.
  apply (no_usable_part_empty_body sample_codec attachments_only).
  - reflexivity.
  - intros q [<-|[<-|[<-|[]]]]; split; reflexivity.
Defined.

(** ** One pass of the monitor *)

Lemma fetched_app (l1 l2 : list EmailMonitor.event) :
  fetched (l1 ++ l2) = (fetched l1 ++ fetched l2)%list.
Proof. apply omap_app. Qed.

Lemma delivered_app (l1 l2 : list EmailMonitor.event) :
  delivered (l1 ++ l2) = (delivered l1 ++ delivered l2)%list.
Proof. apply omap_app. Qed.

Section MailboxFurther.

Import EmailMonitor.

Context {W : Type}.
Variable imap_open : W -> result unit * W.
Variable imap_search : W -> result (string * string) * W.
Variable imap_fetch : string -> W -> result (list Byte.byte) * W.
Variable message_from_bytes : list Byte.byte -> message.
Variable bytes_decode : bool -> string -> list Byte.byte -> result string.
Variable decode_header : string -> list (chunk * option string).
Variable callback : email -> W -> result unit * W.
Variable imap_close : W -> result unit * W.

Local Abbreviation process_message' :=
  (process_message imap_fetch message_from_bytes bytes_decode decode_header callback).
Local Abbreviation process_all' :=
  (process_all imap_fetch message_from_bytes bytes_decode decode_header callback).
Local Abbreviation poll_cycle' :=
  (poll_cycle imap_open imap_search imap_fetch message_from_bytes bytes_decode
     decode_header callback imap_close).

(** One message: fetched and not delivered, with an exception; or fetched
    and delivered. *)
Lemma process_message_log (num : string) (w : world) :
  let r := process_message' num w in
  (exists e, fst r = Raise e /\ log (snd r) = (log w ++ [Fetched num])%list)
  \/ (exists mail, log (snd r) = (log w ++ [Fetched num; Delivered mail])%list).
Proof.
  unfold process_message, and_then, call, pure.
  destruct (imap_fetch num (outside w)) as [[data|e] o1]; cbn [log outside].
  2:{ left. eauto. }
  destruct (_decode_header_value _ _ _) as [subject|e]; [|left; eauto].
  destruct (_decode_header_value _ _ _) as [sender|e]; [|left; eauto].
  destruct (_extract_email_body _ _) as [body|e]; [|left; eauto].
  cbn [log outside].
  destruct (callback _ o1) as [r o2]. cbn [snd log].
  right. eexists. now rewrite <- app_assoc.
Qed.

(** X20. The batch of one pass: the message numbers are fetched in the
    order given, each at most once, up to the first failure; a fetched
    message is delivered to the callback at most once; and when nothing
    fails every number is fetched and delivered. *)
Theorem process_all_in_order (nums : list string) (w : world) :
  let r := process_all' nums w in
  exists k,
    k <= length nums
    /\ fetched (log (snd r)) = (fetched (log w) ++ take k nums)%list
    /\ length (delivered (log (snd r))) <= length (delivered (log w)) + k
    /\ (fst r = Return tt ->
        k = length nums
        /\ length (delivered (log (snd r)))
           = length (delivered (log w)) + length nums)
    /\ (k < length nums -> exists e, fst r = Raise e).
Proof.
  revert w. induction nums as [|num rest IH]; intros w.
  - exists 0. cbn. rewrite app_nil_r. repeat split; lia.
  - cbn [process_all]. unfold and_then.
    pose proof (process_message_log num w) as Hone. cbv zeta in Hone.
    destruct (process_message' num w) as [[[]|e] w1]; cbn [fst snd] in Hone.
    + destruct Hone as [(e & He & _) | (mail & Hlog)]; [discriminate He|].
      destruct (IH w1) as (k & Hk & Hfetched & Hdelivered & Hall & Hfail).
      exists (S k). cbn [length take].
      rewrite Hlog, fetched_app, delivered_app, length_app in *.
      cbn in *. rewrite Hfetched. rewrite <- app_assoc. cbn.
      split; [lia|]. split; [reflexivity|]. split; [lia|].
      split.
      * intros Hret. destruct (Hall Hret) as [-> Hlen]. split; lia.
      * intros Hlt. apply Hfail. lia.
    + exists 1. cbn [fst snd length take].
      split; [lia|].
      destruct Hone as [(e' & _ & Hlog) | (mail & Hlog)];
        rewrite Hlog, fetched_app, delivered_app, length_app; cbn;
        (split; [now destruct rest|]); (split; [lia|]);
        (split; [discriminate | eauto]).
Qed.

Lemma process_all_traffic (nums : list string) (w : world) :
  exists added,
    log (snd (process_all' nums w)) = (log w ++ added)%list
    /\ forallb is_traffic added = true.
Proof.
  revert w. induction nums as [|num rest IH]; intros w.
  - exists []. cbn. now rewrite app_nil_r.
  - cbn [process_all]. unfold and_then.
    pose proof (process_message_log num w) as Hone. cbv zeta in Hone.
    destruct (process_message' num w) as [[[]|e] w1]; cbn [fst snd] in Hone.
    + destruct Hone as [(e & He & _) | (mail & Hlog)]; [discriminate He|].
      destruct (IH w1) as (added & Hadded & Htraffic).
      exists ([Fetched num; Delivered mail] ++ added)%list.
      rewrite Hadded, Hlog. split; [now rewrite <- !app_assoc|].
      exact Htraffic.
    + cbn [snd].
      destruct Hone as [(e' & _ & Hlog) | (mail & Hlog)]; rewrite Hlog;
        eexists; split; reflexivity.
Qed.

(** X21. The events of one pass: it opens the connection first; then
    come only searching, fetching and delivering; and it ends in one of
    three ways - the connection closed; the close attempted, failed and
    the error logged; or an earlier error logged and the connection never
    closed. At most one error is logged, and nothing follows it. *)
Theorem poll_cycle_trace (w : world) :
  exists (traffic final : list event),
    log (poll_cycle' w) = (log w ++ Opened :: traffic ++ final)%list
    /\ forallb is_traffic traffic = true
    /\ (final = [Closed]
        \/ (exists e, final = [Closed; LoggedError e])
        \/ (exists e, final = [LoggedError e])).
Proof.
  unfold poll_cycle, attempt_cycle, and_then, call.
  destruct (imap_open (outside w)) as [[[]|e] o1]; cbn [log outside].
  2:{ exists [], [LoggedError e]. cbn [log app].
      rewrite <- ?app_assoc. repeat split; eauto. }
  destruct (imap_search o1) as [[found|e] o2]; cbn [log outside].
  2:{ exists [Searched], [LoggedError e]. cbn [log app].
      rewrite <- ?app_assoc. repeat split; eauto. }
  set (w2 := {| outside := o2; log := (log w ++ [Opened]) ++ [Searched] |}).
  assert (Hbatch : exists added,
             forall r w3,
               (if String.eqb (fst found) "OK" && str_truthy (Some (snd found))
                then process_all' (split (snd found))
                else pure (Return tt)) w2 = (r, w3) ->
               log w3 = (log w2 ++ added)%list /\ forallb is_traffic added = true).
  { destruct (String.eqb (fst found) "OK" && str_truthy (Some (snd found))).
    - destruct (process_all_traffic (split (snd found)) w2)
        as (added & Hadded & Htraffic).
      exists added. intros r w3 Heq. rewrite Heq in Hadded. now split.
    - exists []. unfold pure. intros r w3 [= <- <-].
      now rewrite app_nil_r. }
  destruct Hbatch as [added Hbatch].
  destruct ((if String.eqb (fst found) "OK" && str_truthy (Some (snd found))
             then process_all' (split (snd found))
             else pure (Return tt)) w2) as [r w3] eqn:Heq.
  destruct (Hbatch r w3 eq_refl) as [Hlog Htraffic].
  destruct r as [[]|e].
  - destruct (imap_close (outside w3)) as [[[]|e] o4]; cbn [log].
    + exists (Searched :: added), [Closed]. rewrite Hlog. subst w2. cbn [log].
      rewrite <- ?app_assoc. cbn [app forallb is_traffic andb].
      rewrite <- ?app_assoc. repeat split; eauto.
    + exists (Searched :: added), [Closed; LoggedError e].
      rewrite Hlog. subst w2. cbn [log].
      rewrite <- ?app_assoc. cbn [app forallb is_traffic andb].
      rewrite <- ?app_assoc. repeat split; eauto.
  - exists (Searched :: added), [LoggedError e]. cbn [log].
    rewrite Hlog. subst w2. cbn [log].
    rewrite <- ?app_assoc. cbn [app forallb is_traffic andb].
    rewrite <- ?app_assoc. repeat split; eauto.
Qed.

(** X22. When the search does not answer OK, or answers with no message
    number, nothing is fetched and nothing delivered: the pass opens,
    searches and closes. *)
Theorem no_unread_no_fetch (w : world) (o1 o2 o3 : W) (status raw : string) :
  imap_open (outside w) = (Return tt, o1) ->
  imap_search o1 = (Return (status, raw), o2) ->
  status <> "OK" \/ raw = EmptyString ->
  imap_close o2 = (Return tt, o3) ->
  poll_cycle' w
  = {| outside := o3; log := log w ++ [Opened; Searched; Closed] |}.
Proof.
  intros Hopen Hsearch Hnone Hclose.
  unfold poll_cycle, attempt_cycle, and_then, call.
  rewrite Hopen. cbn [log outside]. rewrite Hsearch. cbn [log outside fst snd].
  assert (Hcond : String.eqb status "OK" && str_truthy (Some raw) = false).
  { destruct Hnone as [Hstatus | ->].
    - apply andb_false_iff. left. now apply String.eqb_neq.
    - apply andb_false_r. }
  rewrite Hcond. unfold pure. cbn [log outside]. rewrite Hclose.
  now rewrite <- !app_assoc.
Qed.

(** X23. A message that was fetched but whose subject, sender or body
    cannot be decoded is never delivered to the callback: the exception
    ends its processing right after the fetch. *)
Theorem undecodable_message_not_delivered (num : string) (w : world)
    (data : list Byte.byte) (o1 : W) :
  imap_fetch num (outside w) = (Return data, o1) ->
  (exists e, _decode_header_value bytes_decode decode_header
               (get (message_from_bytes data) "Subject" EmptyString) = Raise e)
  \/ (exists e, _decode_header_value bytes_decode decode_header
                  (get (message_from_bytes data) "From" EmptyString) = Raise e)
  \/ (exists e, _extract_email_body bytes_decode (message_from_bytes data)
                = Raise e) ->
  exists e,
    process_message' num w
    = (Raise e, {| outside := o1; log := log w ++ [Fetched num] |}).
Proof.
  intros Hfetch Hfails.
  unfold process_message, and_then, call, pure. rewrite Hfetch.
  cbn [log outside].
  destruct (_decode_header_value bytes_decode decode_header
              (get (message_from_bytes data) "Subject" EmptyString))
    as [subject|e1] eqn:Hsubject; [|eauto].
  destruct (_decode_header_value bytes_decode decode_header
              (get (message_from_bytes data) "From" EmptyString))
    as [sender|e2] eqn:Hsender; [|eauto].
  destruct (_extract_email_body bytes_decode (message_from_bytes data))
    as [body|e3] eqn:Hbody; [|eauto].
  destruct Hfails as [[e He] | [[e He] | [e He]]]; discriminate He.
Qed.

End MailboxFurther.

Lemma no_unread_no_fetch_witness :
  EmailMonitor.poll_cycle always_ok none_unread fetch_some
    (fun _ => html_then_plain) sample_codec unencoded_header accept_mail always_ok
    quiet_world
  = {| EmailMonitor.outside := tt;
       EmailMonitor.log :=
         [EmailMonitor.Opened; EmailMonitor.Searched; EmailMonitor.Closed] |}.
Proof.
  apply (no_unread_no_fetch always_ok none_unread fetch_some
           (fun _ => html_then_plain) sample_codec unencoded_header accept_mail
           always_ok quiet_world tt tt tt "OK" EmptyString).
  - reflexivity.
  - reflexivity.
  - right. reflexivity.
  - reflexivity.
Defined.

Lemma undecodable_message_not_delivered_witness :
  exists e,
    EmailMonitor.process_message fetch_some (fun _ => unknown_charset_message)
      sample_codec unencoded_header accept_mail "1" quiet_world
    = (Raise e,
       {| EmailMonitor.outside := tt;
          EmailMonitor.log := [EmailMonitor.Fetched "1"] |}).
Proof.
  apply (undecodable_message_not_delivered fetch_some
           (fun _ => unknown_charset_message) sample_codec unencoded_header
           accept_mail "1" quiet_world (list_byte_of_string "raw") tt).
  - reflexivity.
  - right. right. eexists. reflexivity.
Defined.

(** With two unread messages and nothing failing, both are fetched and
    delivered, in order, and the connection is closed. *)
Example two_unread_delivered :
  let w := EmailMonitor.poll_cycle always_ok two_unread fetch_some
             (fun _ => html_then_plain) sample_codec unencoded_header accept_mail
             always_ok quiet_world in
  fetched (EmailMonitor.log w) = ["1"; "2"]
  /\ map EmailMonitor.body (delivered (EmailMonitor.log w))
     = ["Find me a job"; "Find me a job"]
  /\ last (EmailMonitor.log w) = Some EmailMonitor.Closed.
Proof. repeat split; vm_compute; reflexivity. Qed.

(** ** Numbered lists and encoded headers *)

Lemma concat_app (l1 l2 : list string) :
  String.concat EmptyString (l1 ++ l2)
  = String.concat EmptyString l1 +:+ String.concat EmptyString l2.
Proof.
  induction l1 as [|x l1 IH]; [reflexivity|].
  cbn [app]. rewrite !concat_cons, IH. now rewrite append_assoc.
Qed.

Lemma enumerate_app {A : Type} (start : nat) (xs : list A) (x : A) :
  enumerate start (xs ++ [x])
  = (enumerate start xs ++ [(start + length xs, x)])%list.
Proof.
  revert start. induction xs as [|y xs IH]; intros start; cbn.
  - now rewrite Nat.add_0_r.
  - rewrite IH. now rewrite Nat.add_succ_r.
Qed.

(** X24. The numbered list of a mail body grows by one line per item: an
    item added at the end gets the next number, counting from 1, and
    leaves the lines before it as they were. *)
Theorem numbered_append (items : list string) (item : string) :
  EmailSender.numbered (items ++ [item])
  = EmailSender.numbered items
    +:+ pretty (S (length items)) +:+ ". " +:+ item +:+ LF.
Proof.
  unfold EmailSender.numbered.
  rewrite enumerate_app, map_app, concat_app. cbn [map fst snd Nat.add].
  reflexivity.
Qed.

Section HeaderFurther.

Import EmailMonitor.

Variable bytes_decode : bool -> string -> list Byte.byte -> result string.
Variable decode_header : string -> list (chunk * option string).




End HeaderFurther.


(** ** Further instances *)

Lemma confirmed_context_lookup_witness :
  dict_lookup "site"
    (confirmed_context (Some [("site", PyStr "jobs.example")]) (PyStr "Job A"))
  = Some (PyStr "jobs.example").
Proof.
  exact (proj2 (confirmed_context_lookup
                  (Some [("site", PyStr "jobs.example")]) (PyStr "Job A"))
           "site" ltac:(discriminate)).
Defined.

Lemma process_all_in_order_witness :
  let r := EmailMonitor.process_all fetch_some (fun _ => html_then_plain)
             sample_codec unencoded_header accept_mail ["1"; "2"] quiet_world in
  exists k,
    k <= 2
    /\ fetched (EmailMonitor.log (snd r)) = take k ["1"; "2"]
    /\ (fst r = Return tt -> k = 2).
Proof.
  destruct (process_all_in_order fetch_some (fun _ => html_then_plain)
              sample_codec unencoded_header accept_mail ["1"; "2"] quiet_world)
    as (k & Hk & Hfetched & _ & Hall & _).
  exists k. split; [exact Hk|]. split; [exact Hfetched|].
  intros Hret. exact (proj1 (Hall Hret)).
Defined.
